(** * Simultaneous Heating + Cooling Analyzer

    A shallow embedding of [simultaneous_heating_cooling/streamlit_simultaneous.py]
    and the properties of its pipeline: loading the two hourly sheets,
    reading building names out of the column labels, joining the two series
    of the selected building on their timestamps, flagging the hours where
    both loads exceed the threshold, and offering them as a download.

    The script is a Streamlit page: it runs top to bottom, puts elements on
    the page, and ends early on [st.stop()] or on an uncaught exception.
    pandas frames are modelled row-wise, each row a finite map from column
    label to cell; Python strings are byte strings (UTF-8). *)

From Stdlib Require Import ZArith QArith Ascii DecimalString.
From stdpp Require Import gmap strings list sorting.

(** ** Cells and exceptions *)

(** A float64 cell. Sheets hold finite numbers and blanks (read as NaN);
    a finite double is the rational it denotes. *)
Inductive float64 :=
  | NaN
  | NegInf
  | PosInf
  | Fin (q : Q).

(** What a frame can hold in this program: loads, timestamps
    (datetime64[ns] as nanoseconds since the epoch, [None] for NaT),
    the boolean flags, and text as read from a sheet. *)
Inductive cell :=
  | Float (x : float64)
  | Stamp (t : option Z)
  | Bool (b : bool)
  | Text (s : string).

Global Instance Q_eq_dec : EqDecision Q.
Proof. solve_decision. Defined.
Global Instance float64_eq_dec : EqDecision float64.
Proof. solve_decision. Defined.
Global Instance cell_eq_dec : EqDecision cell.
Proof. solve_decision. Defined.

Inductive exn :=
  | ValueError (msg : string)
  | KeyError (key : string)
  | TypeError (msg : string).

(** A pandas call either returns or raises. *)
Inductive result (A : Type) :=
  | Ok (a : A)
  | Raise (e : exn).
Global Arguments Ok {A} a.
Global Arguments Raise {A} e.

Global Instance result_ret : MRet result := λ A a, Ok a.
Global Instance result_bind : MBind result := λ A B f m,
  match m with
  | Ok a => f a
  | Raise e => Raise e
  end.
Global Instance result_fmap : FMap result := λ A B f m,
  match m with
  | Ok a => Ok (f a)
  | Raise e => Raise e
  end.

(** Element-wise evaluation of a fallible operation, left to right. *)
Fixpoint traverse {A B} (f : A → result B) (l : list A) : result (list B) :=
  match l with
  | [] => Ok []
  | x :: l' => y ← f x; ys ← traverse f l'; Ok (y :: ys)
  end.

(** ** Frames *)

Record DataFrame := {
  columns : list string;
  rows : list (gmap string cell)
}.

(** The cell of a row under a label; a label the row lacks reads as NaN. *)
Definition cell_at (r : gmap string cell) (col : string) : cell :=
  default (Float NaN) (r !! col).

(** [df[col]] *)
Definition getitem (df : DataFrame) (col : string) : result (list cell) :=
  if decide (col ∈ columns df)
  then Ok ((λ r, cell_at r col) <$> rows df)
  else Raise (KeyError col).

(** [df[[c1, c2, ...]]]; the first absent label is the one reported. *)
Definition select (df : DataFrame) (cols : list string) : result DataFrame :=
  match filter (λ c, c ∉ columns df) cols with
  | [] => Ok {| columns := cols;
                rows := (λ r, filter (λ kv, kv.1 ∈ cols) r) <$> rows df |}
  | c :: _ => Raise (KeyError c)
  end.

(** The labels once [col] is assigned: a new label goes last. *)
Definition with_label (cols : list string) (col : string) : list string :=
  if decide (col ∈ cols) then cols else cols ++ [col].

(** [df[col] = values]. The values are always computed from a column of the
    same frame, hence of the same length and in the same row order. *)
Definition setitem (df : DataFrame) (col : string) (values : list cell) : DataFrame :=
  {| columns := with_label (columns df) col;
     rows := zip_with (λ r v, <[col := v]> r) (rows df) values |}.

Definition isna (c : cell) : bool :=
  match c with
  | Float NaN | Stamp None => true
  | _ => false
  end.

(** [df.dropna(subset=[col], inplace=True)], on a column the frame has. *)
Definition dropna (df : DataFrame) (col : string) : DataFrame :=
  {| columns := columns df;
     rows := filter (λ r, isna (cell_at r col) = false) (rows df) |}.

Definition stamp_of (c : cell) : option Z :=
  match c with
  | Stamp t => t
  | _ => None
  end.

(** Ascending order of datetimes, NaT last. *)
Definition na_last_le (a b : option Z) : Prop :=
  match a, b with
  | Some x, Some y => (x ≤ y)%Z
  | _, None => True
  | None, Some _ => False
  end.

Definition row_le (col : string) (r1 r2 : gmap string cell) : Prop :=
  na_last_le (stamp_of (cell_at r1 col)) (stamp_of (cell_at r2 col)).

Global Instance na_last_le_dec : RelDecision na_last_le.
Proof. intros [x|] [y|]; simpl; apply _. Defined.
Global Instance row_le_dec col : RelDecision (row_le col).
Proof. intros r1 r2. unfold row_le. apply _. Defined.

Global Instance na_last_le_total : Total na_last_le.
Proof. intros [x|] [y|]; simpl; try tauto. lia. Qed.
Global Instance row_le_total col : Total (row_le col).
Proof. intros r1 r2. apply na_last_le_total. Qed.

(** [df.sort_values(col, inplace=True)] on a datetime column. pandas does
    not promise an order among equal keys, and the order this sort gives
    them is not that of pandas: nothing below depends on it. *)
Definition sort_values (df : DataFrame) (col : string) : DataFrame :=
  {| columns := columns df;
     rows := merge_sort (row_le col) (rows df) |}.

(** The pairs of a left and a right element that match, in the order of
    the left ones. *)
Definition matching {A B} (P : A → B → Prop) `{∀ a b, Decision (P a b)}
    (left : list A) (right : list B) : list (A * B) :=
  l ← left; r ← right; if decide (P l r) then [(l, r)] else [].

Definition same_key (on : string) (l r : gmap string cell) : Prop :=
  cell_at l on = cell_at r on.

Global Instance same_key_dec on : RelDecision (same_key on).
Proof. intros l r. unfold same_key. apply _. Defined.

(** [pd.merge(left, right, on=on, how="inner")]: a row for every pair of a
    left and a right row with the same key. The two frames share no label
    but the key at the only call. pandas refuses to merge a key column
    with a time zone and one without (ValueError); the timestamps of this
    model carry no time zone, so what is proved of a merge is proved of
    one that pandas accepts. *)
Definition merge (left right : DataFrame) (on : string) : DataFrame :=
  {| columns := columns left ++ filter (λ c, c ≠ on) (columns right);
     rows := (λ p, p.1 ∪ p.2)
             <$> matching (same_key on) (rows left) (rows right) |}.

Definition rename_label (mapping : list (string * string)) (c : string) : string :=
  match list_find (λ p, p.1 = c) mapping with
  | Some (_, p) => p.2
  | None => c
  end.

Definition rename_row (mapping : list (string * string)) (r : gmap string cell)
  : gmap string cell :=
  foldl (λ r p, match r !! p.1 with
                | Some v => <[p.2 := v]> (delete p.1 r)
                | None => r
                end) r mapping.

(** [df.rename(columns=mapping, inplace=True)], for a mapping whose new
    labels are none of its old ones. *)
Definition rename (df : DataFrame) (mapping : list (string * string)) : DataFrame :=
  {| columns := rename_label mapping <$> columns df;
     rows := rename_row mapping <$> rows df |}.

(** ** Comparison with the threshold *)

(** [x > t] for a float and a Python int: NaN compares false. *)
Definition float_gt (x : float64) (t : Z) : bool :=
  match x with
  | NaN => false
  | NegInf => false
  | PosInf => true
  | Fin q => negb (Qle_bool q (inject_Z t))
  end.

Definition cell_gt (c : cell) (t : Z) : result bool :=
  match c with
  | Float x => Ok (float_gt x t)
  | Bool b => Ok (t <? Z.b2z b)%Z
  | Stamp _ => Raise (TypeError "'>' not supported between datetime and int")
  | Text _ => Raise (TypeError "'>' not supported between instances of 'str' and 'int'")
  end.

(** [series > threshold], cell by cell. pandas looks at the dtype of the
    column first: it refuses a column of datetimes whatever its length,
    where this comparison only fails on a cell. *)
Definition series_gt (s : list cell) (t : Z) : result (list cell) :=
  traverse (λ c, Bool <$> cell_gt c t) s.

Definition cell_and (a b : cell) : result cell :=
  match a, b with
  | Bool x, Bool y => Ok (Bool (x && y))
  | _, _ => Raise (TypeError "unsupported operand type(s) for &")
  end.

(** [a & b] on two columns of one frame *)
Definition series_and (a b : list cell) : result (list cell) :=
  traverse (λ p, cell_and p.1 p.2) (zip a b).

(** [df[flags]]: the rows whose flag is True. *)
Definition mask (df : DataFrame) (flags : list cell) : DataFrame :=
  {| columns := columns df;
     rows := (filter (λ p, p.2 = Bool true) (zip (rows df) flags)).*1 |}.

(** ** Building names in the column labels *)

Definition newline : ascii := "010"%char.

(** The group [(.+?)] followed by the literal [lit]: the group takes one
    character, any but a newline, and then one more each time the literal
    does not follow. *)
Fixpoint lazy_dot_plus (lit : string) (group rest : string) : option string :=
  match rest with
  | "" => None
  | String c rest' =>
      if decide (c = newline) then None
      else let group' := group +:+ String c "" in
           if String.prefix lit rest' then Some group'
           else lazy_dot_plus lit group' rest'
  end.

(** [sub in s] *)
Fixpoint contains (sub s : string) : bool :=
  String.prefix sub s
  || match s with
     | "" => false
     | String _ s' => contains sub s'
     end.

(** Characters that a regular expression does not read literally. *)
Definition re_special (c : ascii) : bool :=
  bool_decide (c ∈ [".";"^";"$";"*";"+";"?";"{";"}";"[";"]";"\";"|";"(";")"]%char).

Fixpoint re_literal (s : string) : bool :=
  match s with
  | "" => true
  | String c s' => negb (re_special c) && re_literal s'
  end.

(** [re.match(fr"(.+?) {suffix} \(kbtuh\)", col)], returning [m.group(1)].
    The suffix goes into the pattern as it is, so this is the pattern's
    meaning for a suffix of literal characters ([re_literal]), as "CHW" and
    "MTHW" are, and for no other: every statement about a suffix that is
    not one of these two assumes [re_literal]. [re.match] anchors at the
    start of [col] only. *)
Definition re_match (suffix col : string) : option string :=
  lazy_dot_plus (" " +:+ suffix +:+ " (kbtuh)") "" col.

(** The labels are strings, as the headers of the sheets are; on a label
    that is not one (a number as a header) [re.match] raises a TypeError,
    which is outside this model. *)
Definition extract_building_names (columns : list string) (suffix : string)
  : list string :=
  foldl (λ buildings col,
           match re_match suffix col with
           | Some g => buildings ++ [g]
           | None => buildings
           end) [] columns.

(** Python's [sorted] on strings: code point order, which on UTF-8 is the
    order of the bytes. *)
Definition sorted (l : list string) : list string := merge_sort String.le l.

(** [sorted(list(set(chw_buildings) & set(mthw_buildings)))] *)
Definition common_buildings (chw_columns mthw_columns : list string) : list string :=
  let chw_buildings := extract_building_names chw_columns "CHW" in
  let mthw_buildings := extract_building_names mthw_columns "MTHW" in
  sorted (elements ((list_to_set chw_buildings : gset string) ∩ list_to_set mthw_buildings)).

(** ** Output file *)

(** [s.replace(old, new)] for one-character [old] and [new]. *)
Fixpoint replace (old new : ascii) (s : string) : string :=
  match s with
  | "" => ""
  | String c s' => String (if decide (c = old) then new else c) (replace old new s')
  end.

Definition out_file (building : string) : string :=
  "simultaneous_" +:+ replace " " "_" building +:+ ".csv".

(** What [df.to_csv(index=False)] writes: the labels, then one record per
    row with a field per label. How pandas prints a field is left out. *)
Record csv := {
  header : list string;
  records : list (list cell)
}.

Definition to_csv (df : DataFrame) : csv :=
  {| header := columns df;
     records := (λ r, (λ c, cell_at r c) <$> columns df) <$> rows df |}.

(** ** Loading the sheets *)

Definition CHW_SHEET : string := "CHW hourly".
Definition MTHW_SHEET : string := "MTHW hourly".

(** [pd.read_excel(DATA_FILE, sheet_name=...)] on the workbook's sheets. *)
Definition read_excel (wb : gmap string DataFrame) (sheet_name : string)
  : result DataFrame :=
  match wb !! sheet_name with
  | Some df => Ok df
  | None => Raise (ValueError ("Worksheet named '" +:+ sheet_name +:+ "' not found"))
  end.

Section load.
(** pandas' date parser: the timestamp of a cell, or [None] where it does
    not parse. It may look at the whole column (to settle on a format). *)
Context (parse_datetime : list cell → cell → option Z).

(** [pd.to_datetime(series, errors="coerce")]: a cell that does not parse
  becomes NaT. pandas still raises on a column that mixes time zones;
  the timestamps of this model carry no time zone, so what is proved of
  a sheet that loads is proved of one whose timestamps pandas accepts. *)
Definition to_datetime (s : list cell) : list cell :=
  (λ c, Stamp (parse_datetime s c)) <$> s.

(** The body of the loop over the two frames. *)
Definition fix_timestamp (df : DataFrame) : result DataFrame :=
  ts ← getitem df "Timestamp";
  let df := setitem df "datetime" (to_datetime ts) in
  let df := dropna df "datetime" in
  Ok (sort_values df "datetime").

Definition load_data (wb : gmap string DataFrame) : result (DataFrame * DataFrame) :=
  chw_df ← read_excel wb CHW_SHEET;
  mthw_df ← read_excel wb MTHW_SHEET;
  chw_df ← fix_timestamp chw_df;
  mthw_df ← fix_timestamp mthw_df;
  Ok (chw_df, mthw_df).
End load.

(** ** Merge and analyze *)

(** The merge: the two columns of the building, joined on "datetime" and
    renamed to "CHW" and "MTHW". *)
Definition merge_sheets (chw_df mthw_df : DataFrame) (building : string)
  : result DataFrame :=
  let chw_col := building +:+ " CHW (kbtuh)" in
  let mthw_col := building +:+ " MTHW (kbtuh)" in
  left ← select chw_df ["datetime"; chw_col];
  right ← select mthw_df ["datetime"; mthw_col];
  let df := merge left right "datetime" in
  Ok (rename df [(chw_col, "CHW"); (mthw_col, "MTHW")]).

(** The three flags on the joined frame, and [simul_df = df[df["simul"]]]. *)
Definition analyze (df : DataFrame) (threshold : Z) : result (DataFrame * DataFrame) :=
  chw ← getitem df "CHW";
  chw_on ← series_gt chw threshold;
  let df := setitem df "CHW_on" chw_on in
  mthw ← getitem df "MTHW";
  mthw_on ← series_gt mthw threshold;
  let df := setitem df "MTHW_on" mthw_on in
  a ← getitem df "CHW_on";
  b ← getitem df "MTHW_on";
  simul ← series_and a b;
  let df := setitem df "simul" simul in
  flags ← getitem df "simul";
  Ok (df, mask df flags).

(** [df] and [simul_df] of the script. *)
Definition merge_and_analyze (chw_df mthw_df : DataFrame) (building : string)
    (threshold : Z) : result (DataFrame * DataFrame) :=
  df ← merge_sheets chw_df mthw_df building;
  analyze df threshold.

(** ** The page *)

Inductive artist :=
  | Line (x y : list cell) (label : string)
  | HLine (y : Z) (label : string)
  | Scatter (x y : list cell) (label : string).

Record figure := {
  artists : list artist;
  fig_title : string;
  fig_xlabel : string;
  fig_ylabel : string
}.

Inductive element :=
  | StTitle (body : string)
  | StSubheader (body : string)
  | StSelectbox (label : string) (options : list string)
  | StNumberInput (label : string) (min_value max_value value step : Z)
  | StSuccess (body : string)
  | StInfo (body : string)
  | StWrite (body : string)
  | StDataframe (data : DataFrame)
  | StPyplot (fig : figure)
  | StDownloadButton (label : string) (data : csv) (file_name : string).

(** The elements through which the script tells the user something in
    words; it has no [st.error] or [st.warning]. *)
Definition is_message (e : element) : bool :=
  match e with
  | StSuccess _ | StInfo _ | StWrite _ => true
  | _ => false
  end.

(** How a run of the script ends: at its last line, at [st.stop()], or with
    an exception nobody catches (Streamlit then shows it on the page). *)
Inductive outcome (A : Type) :=
  | Done (a : A)
  | Stopped
  | Uncaught (e : exn).
Global Arguments Done {A} a.
Global Arguments Stopped {A}.
Global Arguments Uncaught {A} e.

(** A piece of the script: from the page so far to the page after it. *)
Definition script (A : Type) : Type := list element → list element * outcome A.

Global Instance script_ret : MRet script := λ A a page, (page, Done a).
Global Instance script_bind : MBind script := λ A B f m page,
  match m page with
  | (page', Done a) => f a page'
  | (page', Stopped) => (page', Stopped)
  | (page', Uncaught e) => (page', Uncaught e)
  end.

Definition show (e : element) : script unit := λ page, (page ++ [e], Done tt).
Definition st_stop {A} : script A := λ page, (page, Stopped).
Definition lift {A} (r : result A) : script A := λ page,
  match r with
  | Ok a => (page, Done a)
  | Raise e => (page, Uncaught e)
  end.

(** What the user does with the two widgets. *)
Record session := {
  picked : nat;
  entered : Z
}.

(** The option picked in a select box, the first one by default; [None]
    when there is nothing to pick from. *)
Definition chosen (options : list string) (s : session) : option string :=
  match options !! picked s with
  | Some b => Some b
  | None => head options
  end.

(** [st.selectbox(label, options=options)] *)
Definition selectbox (label : string) (options : list string) (s : session)
  : script (option string) :=
  show (StSelectbox label options);;
  mret (chosen options s).

(** A number input hands the script what is entered when that is within
    its bounds. The widget does not accept a number outside them; for
    such an entry this model takes the nearest bound. *)
Definition clamp (min_value max_value v : Z) : Z :=
  Z.max min_value (Z.min max_value v).

(** [st.number_input(label, min_value, max_value, value, step)] *)
Definition number_input (label : string) (min_value max_value value step : Z)
    (s : session) : script Z :=
  show (StNumberInput label min_value max_value value step);;
  mret (clamp min_value max_value (entered s)).

(** [str(n)] for a Python int. *)
Definition str (n : Z) : string := NilZero.string_of_int (Z.to_int n).

Section app.
Context (parse_datetime : list cell → cell → option Z).

(** The three charts. *)
Definition plotting (building : string) (threshold : Z) (df simul_df : DataFrame)
  : script unit :=
  x ← lift (getitem df "datetime");
  y ← lift (getitem df "CHW");
  show (StPyplot {| artists := [Line x y "CHW Load"; HLine threshold "Threshold"];
                  fig_title := building +:+ " — CHW Load";
                  fig_xlabel := "Date"; fig_ylabel := "kbtuh" |});;
  x ← lift (getitem df "datetime");
  y ← lift (getitem df "MTHW");
  show (StPyplot {| artists := [Line x y "MTHW Load"; HLine threshold "Threshold"];
                  fig_title := building +:+ " — MTHW Load";
                  fig_xlabel := "Date"; fig_ylabel := "kbtuh" |});;
  x1 ← lift (getitem df "datetime");
  y1 ← lift (getitem df "CHW");
  x2 ← lift (getitem df "datetime");
  y2 ← lift (getitem df "MTHW");
  sx ← lift (getitem simul_df "datetime");
  sy ← lift (getitem simul_df "CHW");
  show (StPyplot {| artists := [Line x1 y1 "CHW"; Line x2 y2 "MTHW";
                              HLine threshold "Threshold";
                              Scatter sx sy "Simultaneous H+C"];
                  fig_title := building +:+ " — Simultaneous Heating + Cooling";
                  fig_xlabel := "Date"; fig_ylabel := "kbtuh" |}).

(** One run of the script, top to bottom. *)
Definition app (wb : gmap string DataFrame) (s : session) : script unit :=
  show (StTitle "Simultaneous Heating + Cooling Analyzer");;
  '(chw_df, mthw_df) ← lift (load_data parse_datetime wb);
  let common := common_buildings (columns chw_df) (columns mthw_df) in
  show (StSubheader "Select Building");;
  building ← selectbox "Choose a building:" common s;
  match building with
  | None | Some "" => st_stop
  | Some building =>
      show (StSuccess ("Selected Building: **" +:+ building +:+ "**"));;
      show (StSubheader "Threshold Adjustment");;
      threshold ← number_input
        "Enter the kBTU/h threshold for determining system 'on' status:"
        0 5000 700 50 s;
      show (StInfo ("Using threshold: **" +:+ str threshold +:+ " kBTU/h**"));;
      '(df, simul_df) ← lift (merge_and_analyze chw_df mthw_df building threshold);
      show (StSubheader "Simultaneous Heating + Cooling Summary");;
      show (StWrite ("**Total hours detected:** "
                   +:+ str (Z.of_nat (length (rows simul_df)))));;
      shown ← lift (select simul_df ["datetime"; "CHW"; "MTHW"]);
      show (StDataframe shown);;
      plotting building threshold df simul_df;;
      show (StSuccess ("Saved output file: **" +:+ out_file building +:+ "**"));;
      show (StDownloadButton "Download CSV" (to_csv simul_df) (out_file building))
  end.
End app.

(** ** Sample data *)

(** A parser for sheets whose timestamps are already datetimes: anything
    else is taken not to parse. *)
Definition parse_stamps (_ : list cell) (c : cell) : option Z := stamp_of c.

Definition num (n : Z) : cell := Float (Fin (inject_Z n)).
Definition hour (ns : Z) : cell := Stamp (Some ns).

Definition sample_chw : DataFrame :=
  {| columns := ["Timestamp"; "Library CHW (kbtuh)"; "Annex CHW (kbtuh)"];
     rows := [ {[ "Timestamp" := hour 7200; "Library CHW (kbtuh)" := num 750;
                  "Annex CHW (kbtuh)" := num 10 ]};
               {[ "Timestamp" := Text "n/a"; "Library CHW (kbtuh)" := num 900;
                  "Annex CHW (kbtuh)" := num 20 ]};
               {[ "Timestamp" := hour 3600; "Library CHW (kbtuh)" := num 750;
                  "Annex CHW (kbtuh)" := num 30 ]};
               {[ "Timestamp" := hour 10800; "Library CHW (kbtuh)" := num 700;
                  "Annex CHW (kbtuh)" := num 40 ]} ] |}.

Definition sample_mthw : DataFrame :=
  {| columns := ["Timestamp"; "Library MTHW (kbtuh)"];
     rows := [ {[ "Timestamp" := hour 3600; "Library MTHW (kbtuh)" := num 800 ]};
               {[ "Timestamp" := hour 7200; "Library MTHW (kbtuh)" := num 650 ]};
               {[ "Timestamp" := hour 10800; "Library MTHW (kbtuh)" := num 900 ]};
               {[ "Timestamp" := hour 14400; "Library MTHW (kbtuh)" := num 900 ]} ] |}.

Definition sample_wb : gmap string DataFrame :=
  {[ CHW_SHEET := sample_chw; MTHW_SHEET := sample_mthw ]}.

(** The two frames of a workbook that loads, its timestamps read as they
    are; two empty frames if it does not load. *)
Definition loaded (wb : gmap string DataFrame) : DataFrame * DataFrame :=
  match load_data parse_stamps wb with
  | Ok frames => frames
  | Raise _ => ({| columns := []; rows := [] |}, {| columns := []; rows := [] |})
  end.


(** [df] and [simul_df] for a building of such a workbook. *)
Definition analysed (wb : gmap string DataFrame) (building : string) (threshold : Z)
  : DataFrame * DataFrame :=
  match merge_and_analyze (loaded wb).1 (loaded wb).2 building threshold with
  | Ok frames => frames
  | Raise _ => ({| columns := []; rows := [] |}, {| columns := []; rows := [] |})
  end.

(** A workbook in which an hour is recorded twice in each sheet. *)
Definition twice_chw : DataFrame :=
  {| columns := ["Timestamp"; "Library CHW (kbtuh)"];
     rows := [ {[ "Timestamp" := hour 3600; "Library CHW (kbtuh)" := num 750 ]};
               {[ "Timestamp" := hour 3600; "Library CHW (kbtuh)" := num 900 ]} ] |}.

Definition twice_mthw : DataFrame :=
  {| columns := ["Timestamp"; "Library MTHW (kbtuh)"];
     rows := [ {[ "Timestamp" := hour 3600; "Library MTHW (kbtuh)" := num 800 ]};
               {[ "Timestamp" := hour 3600; "Library MTHW (kbtuh)" := num 950 ]} ] |}.

Definition twice_wb : gmap string DataFrame :=
  {[ CHW_SHEET := twice_chw; MTHW_SHEET := twice_mthw ]}.

(** A workbook whose sheets have no building in common. *)
Definition annex_chw : DataFrame :=
  {| columns := ["Timestamp"; "Annex CHW (kbtuh)"];
     rows := [ {[ "Timestamp" := hour 3600; "Annex CHW (kbtuh)" := num 750 ]} ] |}.

Definition annex_wb : gmap string DataFrame :=
  {[ CHW_SHEET := annex_chw; MTHW_SHEET := sample_mthw ]}.

(** A workbook whose CHW sheet has a label with something after "(kbtuh)". *)
Definition stale_chw : DataFrame :=
  {| columns := ["Timestamp"; "Library CHW (kbtuh) old"];
     rows := [ {[ "Timestamp" := hour 3600; "Library CHW (kbtuh) old" := num 750 ]} ] |}.

Definition stale_wb : gmap string DataFrame :=
  {[ CHW_SHEET := stale_chw; MTHW_SHEET := sample_mthw ]}.

(** ** The loaded rows in terms of the sheet *)

(** The Timestamp column of a sheet, and what the parser makes of a row's
    timestamp in it. *)
Definition timestamps (sheet : DataFrame) : list cell :=
  (λ r, cell_at r "Timestamp") <$> rows sheet.

Definition datetime_of (parse_datetime : list cell → cell → option Z)
    (sheet : DataFrame) (r : gmap string cell) : option Z :=
  parse_datetime (timestamps sheet) (cell_at r "Timestamp").

(** ** The joined rows with their flags *)

(** The row that the merge and the renaming make of a matching pair. *)
Definition joined_row (building : string) (l r : gmap string cell) : gmap string cell :=
  rename_row [(building +:+ " CHW (kbtuh)", "CHW"); (building +:+ " MTHW (kbtuh)", "MTHW")]
    (filter (λ kv, kv.1 ∈ ["datetime"; building +:+ " CHW (kbtuh)"]) l
     ∪ filter (λ kv, kv.1 ∈ ["datetime"; building +:+ " MTHW (kbtuh)"]) r).

(** Whether a cell counts as on, where the comparison is defined. *)
Definition gt_flag (c : cell) (t : Z) : bool :=
  match cell_gt c t with
  | Ok b => b
  | Raise _ => false
  end.

(** A joined row after the three assignments. *)
Definition flagged (t : Z) (r : gmap string cell) : gmap string cell :=
  let chw_on := gt_flag (cell_at r "CHW") t in
  let mthw_on := gt_flag (cell_at r "MTHW") t in
  <["simul" := Bool (chw_on && mthw_on)]>
    (<["MTHW_on" := Bool mthw_on]> (<["CHW_on" := Bool chw_on]> r)).

(** A visit that leaves both widgets as they are. *)
Definition visit : session := {| picked := 0; entered := 700 |}.

(** ** Sheets that follow the convention *)

(** A cell that [>] compares with a number. *)
Definition comparable (c : cell) : bool :=
  match c with
  | Float _ | Bool _ => true
  | Stamp _ | Text _ => false
  end.

(** Whether every label from which a name is read is nothing but that
    name, a space, the suffix and " (kbtuh)". *)
Definition exact_labels (suffix : string) (cols : list string) : bool :=
  forallb (λ col, match re_match suffix col with
                  | Some g => bool_decide (col = g +:+ " " +:+ suffix +:+ " (kbtuh)")
                  | None => true
                  end) cols.

(** ** What a page shows *)

(** The elements that show a result of the analysis. *)
Definition is_result (e : element) : bool :=
  match e with
  | StDataframe _ | StPyplot _ | StDownloadButton _ _ _ => true
  | _ => false
  end.

(** The charts of a page, top to bottom. *)
Definition figures_of (page : list element) : list figure :=
  omap (λ e, match e with
             | StPyplot fig => Some fig
             | _ => None
             end) page.

(** ** More sample data *)

(** A workbook with a note in place of a load, at an hour that both sheets
    have. *)
Definition noted_chw : DataFrame :=
  {| columns := ["Timestamp"; "Library CHW (kbtuh)"];
     rows := [ {[ "Timestamp" := hour 3600; "Library CHW (kbtuh)" := Text "offline" ]};
               {[ "Timestamp" := hour 7200; "Library CHW (kbtuh)" := num 750 ]} ] |}.

Definition noted_wb : gmap string DataFrame :=
  {[ CHW_SHEET := noted_chw; MTHW_SHEET := sample_mthw ]}.



(** The sample workbook with other loads for the Annex. *)
Definition revised_chw : DataFrame :=
  {| columns := ["Timestamp"; "Library CHW (kbtuh)"; "Annex CHW (kbtuh)"];
     rows := [ {[ "Timestamp" := hour 7200; "Library CHW (kbtuh)" := num 750;
                  "Annex CHW (kbtuh)" := num 510 ]};
               {[ "Timestamp" := Text "n/a"; "Library CHW (kbtuh)" := num 900;
                  "Annex CHW (kbtuh)" := Text "offline" ]};
               {[ "Timestamp" := hour 3600; "Library CHW (kbtuh)" := num 750;
                  "Annex CHW (kbtuh)" := num 530 ]};
               {[ "Timestamp" := hour 10800; "Library CHW (kbtuh)" := num 700;
                  "Annex CHW (kbtuh)" := Float NaN ]} ] |}.

Definition revised_wb : gmap string DataFrame :=
  {[ CHW_SHEET := revised_chw; MTHW_SHEET := sample_mthw ]}.

(** ** Proof steps *)

(** Membership in a list that is written out, and its negation from the
    disequalities at hand. *)
Ltac in_list := repeat first [apply list_elem_of_here | apply list_elem_of_further].
Ltac not_in_list :=
  rewrite ?not_elem_of_cons; repeat split;
  first [done | congruence | apply not_elem_of_nil].

(** * Properties *)

(** ** Strings *)

Section strings.
Implicit Types s t u p : string.

Lemma str_app_cons (c : ascii) s t : String c s +:+ t = String c (s +:+ t).
Proof. reflexivity. Qed.

Lemma str_app_nil_l s : "" +:+ s = s.
Proof. reflexivity. Qed.

Lemma str_app_nil_r s : s +:+ "" = s.
Proof. induction s as [|c s IH]; [done|]. by rewrite str_app_cons, IH. Qed.

Lemma str_app_assoc s t u : (s +:+ t) +:+ u = s +:+ t +:+ u.
Proof. induction s as [|c s IH]; [done|]. by rewrite !str_app_cons, IH. Qed.

Lemma str_length_app s t : String.length (s +:+ t) = String.length s + String.length t.
Proof. induction s as [|c s IH]; [done|]. rewrite str_app_cons. simpl. by rewrite IH. Qed.

Lemma chars_app s t :
  String.list_ascii_of_string (s +:+ t)
  = String.list_ascii_of_string s ++ String.list_ascii_of_string t.
Proof. induction s as [|c s IH]; [done|]. rewrite str_app_cons. simpl. by rewrite IH. Qed.

Lemma chars_inj s t :
  String.list_ascii_of_string s = String.list_ascii_of_string t → s = t.
Proof.
  intros H. rewrite <-(String.string_of_list_ascii_of_string s),
    <-(String.string_of_list_ascii_of_string t). by rewrite H.
Qed.

Lemma prefix_app p s : String.prefix p s = true ↔ ∃ w, s = p +:+ w.
Proof.
  revert s. induction p as [|a p IH]; intros s; simpl.
  - destruct s; split; eauto.
  - destruct s as [|b s]; simpl.
    + split; [done|]. intros [w Hw]. by rewrite str_app_cons in Hw.
    + destruct (ascii_dec a b) as [->|Hne].
      * rewrite IH. split; intros [w Hw]; exists w.
        -- by rewrite str_app_cons, Hw.
        -- rewrite str_app_cons in Hw. by simplify_eq.
      * split; [done|]. intros [w Hw]. rewrite str_app_cons in Hw. by simplify_eq.
Qed.

Lemma contains_app sub s :
  contains sub s = true ↔ ∃ pre post, s = pre +:+ sub +:+ post.
Proof.
  induction s as [|c s IH]; cbn [contains]; rewrite orb_true_iff, prefix_app.
  - split.
    + intros [[w Hw]|?]; [|done]. by exists "", w.
    + intros (pre & post & H). left. exists post.
      destruct pre; [done|]. by rewrite str_app_cons in H.
  - rewrite IH. split.
    + intros [[w Hw]|(pre & post & H)]; [by exists "", w|].
      exists (String c pre), post. by rewrite str_app_cons, H.
    + intros (pre & post & H). destruct pre as [|c' pre].
      * left. by exists post.
      * right. rewrite str_app_cons in H. simplify_eq. by exists pre, post.
Qed.

Lemma prefix_nil s : String.prefix "" s = true.
Proof. by destruct s. Qed.

Lemma contains_char (c : ascii) s :
  contains (String c "") s = false ↔ c ∉ String.list_ascii_of_string s.
Proof.
  induction s as [|a s IH]; simpl.
  - split; [intros _; apply not_elem_of_nil | done].
  - rewrite orb_false_iff, IH, not_elem_of_cons.
    destruct (ascii_dec c a) as [->|Hne]; [rewrite prefix_nil|];
      split; intros [??]; done.
Qed.
End strings.

(** ** Building names *)

Section names.
Implicit Types s b g lit rest : string.

Lemma extract_building_names_omap cols s :
  extract_building_names cols s = omap (re_match s) cols.
Proof.
  unfold extract_building_names.
  enough (∀ acc, foldl (λ buildings col,
              match re_match s col with
              | Some g => buildings ++ [g]
              | None => buildings
              end) acc cols = acc ++ omap (re_match s) cols) as H by apply H.
  induction cols as [|col cols IH]; intros acc; simpl.
  - by rewrite app_nil_r.
  - rewrite IH. destruct (re_match s col); [|done]. by rewrite <-app_assoc.
Qed.

(** What a match tells about the label: it starts with the name, the
    name is not empty, and the pattern follows; more may follow that. *)
Lemma lazy_dot_plus_Some lit g0 col g :
  lazy_dot_plus lit g0 col = Some g →
  ∃ b rest, b ≠ "" ∧ g = g0 +:+ b ∧ col = b +:+ lit +:+ rest
            ∧ contains (String newline "") b = false.
Proof.
  revert g0. induction col as [|c col IH]; intros g0; [done|].
  cbn [lazy_dot_plus]. destruct (decide (c = newline)) as [|Hc]; [done|].
  assert (contains (String newline "") (String c "") = false) as Hone.
  { apply contains_char. simpl. rewrite list_elem_of_singleton. congruence. }
  destruct (String.prefix lit col) eqn:Hp.
  - intros [= <-]. apply prefix_app in Hp as [rest ->].
    by exists (String c ""), rest.
  - intros (b & rest & Hb & -> & -> & Hnl)%IH.
    exists (String c b), rest. split; [done|]. split.
    + by rewrite str_app_assoc.
    + split; [done|]. apply contains_char. simpl.
      apply not_elem_of_cons. split; [congruence|]. by apply contains_char.
Qed.

Lemma lazy_dot_plus_first lit g b rest :
  b ≠ "" →
  contains (String newline "") b = false →
  (∀ x u, b = x +:+ u → x ≠ "" → u ≠ "" →
          String.prefix lit (u +:+ lit +:+ rest) = false) →
  lazy_dot_plus lit g (b +:+ lit +:+ rest) = Some (g +:+ b).
Proof.
  revert g. induction b as [|c b IH]; intros g Hb Hnl Hfirst; [done|].
  rewrite str_app_cons. cbn [lazy_dot_plus].
  apply contains_char in Hnl. simpl in Hnl.
  apply not_elem_of_cons in Hnl as [Hc Hnl].
  destruct (decide (c = newline)) as [|_]; [congruence|].
  destruct b as [|c' b].
  - rewrite str_app_nil_l.
    assert (String.prefix lit (lit +:+ rest) = true) as ->; [|done].
    apply prefix_app. by exists rest.
  - rewrite (Hfirst (String c "") (String c' b)); [|done..].
    rewrite IH; [by rewrite str_app_assoc|done|by apply contains_char|].
    intros x u Hxu Hx Hu.
    apply (Hfirst (String c x) u); [by rewrite str_app_cons, Hxu|done..].
Qed.

(** The pattern ends in a character that occurs nowhere else in it, so
    an occurrence cannot start before the end of the name and run past it. *)
Lemma prefix_overlap (c : ascii) q u rest :
  c ∉ String.list_ascii_of_string q →
  u ≠ "" →
  String.prefix (q +:+ String c "") (u +:+ (q +:+ String c "") +:+ rest) = true →
  String.prefix (q +:+ String c "") u = true.
Proof.
  intros Hq Hu [w Hw]%prefix_app. apply prefix_app.
  apply (f_equal String.list_ascii_of_string) in Hw.
  rewrite !chars_app in Hw. simpl in Hw.
  rewrite <-!app_assoc in Hw. simpl in Hw.
  destruct (decide (c ∈ String.list_ascii_of_string u)) as [Hin|Hnin].
  - apply list_elem_of_split_l in Hin as (l1 & l2 & Hul & Hl1).
    rewrite Hul, <-app_assoc in Hw. simpl in Hw.
    apply not_elem_of_app_cons_inv_l in Hw as (-> & _ & _); [|done..].
    exists (String.string_of_list_ascii l2). apply chars_inj.
    rewrite !chars_app, String.list_ascii_of_string_of_list_ascii.
    by rewrite Hul, <-app_assoc.
  - rewrite app_assoc in Hw.
    apply not_elem_of_app_cons_inv_l in Hw as (Hlen & _ & _);
      [|done|by apply not_elem_of_app].
    apply (f_equal length) in Hlen. rewrite length_app in Hlen.
    destruct u; [done|]. simpl in Hlen. lia.
Qed.

Lemma re_literal_chars s c :
  re_literal s = true → c ∈ String.list_ascii_of_string s → re_special c = false.
Proof.
  induction s as [|a s IH]; simpl; [by intros _ ?%elem_of_nil|].
  intros [Ha Hs]%andb_true_iff [->|Hin]%elem_of_cons; [|by apply IH].
  by apply negb_true_iff.
Qed.

(** A label made of a name and the pattern, and whatever comes after. *)
Lemma re_match_label s b rest :
  re_literal s = true →
  b ≠ "" →
  contains (String newline "") b = false →
  contains (s +:+ " (kbtuh)") b = false →
  re_match s (b +:+ " " +:+ s +:+ " (kbtuh)" +:+ rest) = Some b.
Proof.
  intros Hs Hb Hnl Hsub. unfold re_match.
  set (q := " " +:+ s +:+ " (kbtuh").
  assert (" " +:+ s +:+ " (kbtuh)" = q +:+ ")") as Hlit.
  { unfold q. by rewrite !str_app_assoc. }
  assert (b +:+ " " +:+ s +:+ " (kbtuh)" +:+ rest = b +:+ (q +:+ ")") +:+ rest) as ->.
  { rewrite <-Hlit. by rewrite !str_app_assoc. }
  rewrite Hlit, lazy_dot_plus_first; [done..|].
  intros x u -> Hx Hu. apply not_true_is_false. intros Hp.
  apply prefix_overlap in Hp; [|clear Hp|done].
  - apply prefix_app in Hp as [w ->].
    assert (contains (s +:+ " (kbtuh)") (x +:+ (q +:+ ")") +:+ w) = true) as Hc;
      [|congruence].
    apply contains_app. exists (x +:+ " "), w.
    rewrite <-Hlit. by rewrite !str_app_assoc.
  - unfold q. rewrite !chars_app. simpl.
    intros [?|[Hin|Hin]%elem_of_app]%elem_of_cons.
    + done.
    + by apply (re_literal_chars _ _ Hs) in Hin.
    + revert Hin. rewrite !elem_of_cons, elem_of_nil. intuition congruence.
Qed.

Lemma re_match_Some s col g :
  re_match s col = Some g →
  g ≠ "" ∧ contains (String newline "") g = false
  ∧ ∃ rest, col = g +:+ " " +:+ s +:+ " (kbtuh)" +:+ rest.
Proof.
  intros (b & rest & Hb & -> & -> & Hnl)%lazy_dot_plus_Some.
  rewrite str_app_nil_l. split; [done|]. split; [done|].
  exists rest. by rewrite !str_app_assoc.
Qed.

Lemma extract_building_names_elem cols s g :
  g ∈ extract_building_names cols s ↔ ∃ col, col ∈ cols ∧ re_match s col = Some g.
Proof. rewrite extract_building_names_omap. apply list_elem_of_omap. Qed.

(** The same for every label: what follows the pattern is not looked at. *)
Lemma extract_ignores_trailing s b rest :
  re_literal s = true →
  b ≠ "" →
  contains (String newline "") b = false →
  contains (s +:+ " (kbtuh)") b = false →
  extract_building_names [b +:+ " " +:+ s +:+ " (kbtuh)" +:+ rest] s = [b].
Proof.
  intros. rewrite extract_building_names_omap. simpl.
  by rewrite re_match_label.
Qed.

(** C10 as stated fails for the empty name, and for a name with a line
    break: the group of the pattern takes at least one character, and no
    newline. *)
Lemma empty_name_not_extracted :
  (contains ("CHW" +:+ " (kbtuh)") "" = false
   ∧ extract_building_names ["" +:+ " " +:+ "CHW" +:+ " (kbtuh)"] "CHW" ≠ [""])
  ∧ (contains ("CHW" +:+ " (kbtuh)") ("East" +:+ String newline "Wing") = false
     ∧ extract_building_names
         [("East" +:+ String newline "Wing") +:+ " " +:+ "CHW" +:+ " (kbtuh)"] "CHW"
       ≠ ["East" +:+ String newline "Wing"]).
Proof. split; (split; [by vm_compute|by vm_compute]). Qed.

(** C10, amended: for a suffix of literal characters and a name that is
    not empty, has no line break and does not contain the suffix followed
    by " (kbtuh)", the label built from the name gives back the name. *)
Theorem name_round_trip s b :
  re_literal s = true →
  b ≠ "" →
  contains (String newline "") b = false →
  contains (s +:+ " (kbtuh)") b = false →
  extract_building_names [b +:+ " " +:+ s +:+ " (kbtuh)"] s = [b].
Proof.
  intros Hs Hb Hnl Hsub.
  rewrite <-(extract_ignores_trailing s b "" Hs Hb Hnl Hsub).
  by rewrite !str_app_nil_r.
Qed.

(** An instance: a name with a space in it. *)
Lemma name_round_trip_witness :
  re_literal "MTHW" = true
  ∧ "Science Hall" ≠ ""
  ∧ contains (String newline "") "Science Hall" = false
  ∧ contains ("MTHW" +:+ " (kbtuh)") "Science Hall" = false
  ∧ extract_building_names ["Science Hall" +:+ " " +:+ "MTHW" +:+ " (kbtuh)"] "MTHW"
    = ["Science Hall"].
Proof.
  split; [reflexivity|]. split; [done|].
  split; [reflexivity|]. split; [reflexivity|].
  apply (name_round_trip "MTHW" "Science Hall"); [reflexivity|done|reflexivity..].
Defined.
End names.

(** ** Buildings in both sheets *)

Section common.
Implicit Types cols : list string.

Lemma sorted_Sorted (l : list string) : Sorted String.le (sorted l).
Proof. apply (Sorted_merge_sort String.le). Qed.

Lemma sorted_Permutation (l : list string) : sorted l ≡ₚ l.
Proof. apply (merge_sort_Permutation String.le). Qed.

Lemma common_buildings_elem chw_cols mthw_cols b :
  b ∈ common_buildings chw_cols mthw_cols
  ↔ b ∈ extract_building_names chw_cols "CHW"
    ∧ b ∈ extract_building_names mthw_cols "MTHW".
Proof.
  unfold common_buildings. rewrite sorted_Permutation, elem_of_elements.
  by rewrite elem_of_intersection, !elem_of_list_to_set.
Qed.

Lemma common_buildings_NoDup chw_cols mthw_cols :
  NoDup (common_buildings chw_cols mthw_cols).
Proof.
  unfold common_buildings. rewrite sorted_Permutation. apply NoDup_elements.
Qed.

(** C6: the list is in ascending order without repetition, holds exactly
    the names extracted from both sheets, is the only such list, and
    does not change when the columns of either sheet are reordered. *)
Theorem common_buildings_sorted_intersection chw_cols mthw_cols chw_cols' mthw_cols' :
  chw_cols ≡ₚ chw_cols' →
  mthw_cols ≡ₚ mthw_cols' →
  Sorted String.le (common_buildings chw_cols mthw_cols)
  ∧ NoDup (common_buildings chw_cols mthw_cols)
  ∧ (∀ b, b ∈ common_buildings chw_cols mthw_cols
          ↔ b ∈ extract_building_names chw_cols "CHW"
            ∧ b ∈ extract_building_names mthw_cols "MTHW")
  ∧ (∀ l, Sorted String.le l → NoDup l →
          (∀ b, b ∈ l ↔ b ∈ extract_building_names chw_cols "CHW"
                        ∧ b ∈ extract_building_names mthw_cols "MTHW") →
          l = common_buildings chw_cols mthw_cols)
  ∧ common_buildings chw_cols' mthw_cols' = common_buildings chw_cols mthw_cols.
Proof.
  intros Hchw Hmthw. split; [apply sorted_Sorted|].
  split; [apply common_buildings_NoDup|].
  split; [apply common_buildings_elem|]. split.
  - intros l Hsorted Hnodup Hl.
    apply (Sorted_unique String.le); [done|apply sorted_Sorted|].
    apply NoDup_Permutation; [done|apply common_buildings_NoDup|].
    intros b. by rewrite Hl, common_buildings_elem.
  - unfold common_buildings. rewrite !extract_building_names_omap.
    by rewrite (list_to_set_perm_L _ _ (omap_Permutation _ _ _ Hchw)),
      (list_to_set_perm_L _ _ (omap_Permutation _ _ _ Hmthw)).
Qed.

(** An instance: the columns of each sheet in another order. *)
Lemma common_buildings_sorted_intersection_witness :
  ["Zed CHW (kbtuh)"; "Timestamp"; "Annex CHW (kbtuh)"; "Library CHW (kbtuh)"]
    ≡ₚ ["Timestamp"; "Annex CHW (kbtuh)"; "Library CHW (kbtuh)"; "Zed CHW (kbtuh)"]
  ∧ ["Zed MTHW (kbtuh)"; "Library MTHW (kbtuh)"]
      ≡ₚ ["Library MTHW (kbtuh)"; "Zed MTHW (kbtuh)"]
  ∧ common_buildings
      ["Timestamp"; "Annex CHW (kbtuh)"; "Library CHW (kbtuh)"; "Zed CHW (kbtuh)"]
      ["Library MTHW (kbtuh)"; "Zed MTHW (kbtuh)"]
    = common_buildings
        ["Zed CHW (kbtuh)"; "Timestamp"; "Annex CHW (kbtuh)"; "Library CHW (kbtuh)"]
        ["Zed MTHW (kbtuh)"; "Library MTHW (kbtuh)"].
Proof.
  assert (["Zed CHW (kbtuh)"; "Timestamp"; "Annex CHW (kbtuh)"; "Library CHW (kbtuh)"]
    ≡ₚ ["Timestamp"; "Annex CHW (kbtuh)"; "Library CHW (kbtuh)"; "Zed CHW (kbtuh)"])
    as H1
    by exact (Permutation_cons_append
                ["Timestamp"; "Annex CHW (kbtuh)"; "Library CHW (kbtuh)"]
                "Zed CHW (kbtuh)").
  assert (["Zed MTHW (kbtuh)"; "Library MTHW (kbtuh)"]
      ≡ₚ ["Library MTHW (kbtuh)"; "Zed MTHW (kbtuh)"]) as H2 by apply perm_swap.
  split; [done|]. split; [done|].
  apply (common_buildings_sorted_intersection _ _ _ _ H1 H2).
Defined.
End common.

(** ** The result monad *)

Lemma bind_Ok {A B} (m : result A) (f : A → result B) b :
  m ≫= f = Ok b ↔ ∃ a, m = Ok a ∧ f a = Ok b.
Proof. destruct m; simpl; split; [eauto|by intros (? & [= ->] & ?)|done|by intros (? & ? & ?)]. Qed.

Lemma traverse_Ok {A B} (f : A → result B) l l' :
  traverse f l = Ok l' ↔ Forall2 (λ x y, f x = Ok y) l l'.
Proof.
  revert l'. induction l as [|x l IH]; intros l'; simpl.
  - split; [by intros [= <-]|by intros ->%Forall2_nil_inv_l].
  - rewrite bind_Ok. split.
    + intros (y & Hy & (ys & Hys & [= <-])%bind_Ok). constructor; [done|by apply IH].
    + intros (y & ys & Hy & Hys & ->)%Forall2_cons_inv_l.
      exists y. split; [done|]. apply bind_Ok. exists ys. by rewrite IH.
Qed.

(** ** Frames *)

Lemma getitem_Ok df col s :
  getitem df col = Ok s ↔ col ∈ columns df ∧ s = ((λ r, cell_at r col) <$> rows df).
Proof.
  unfold getitem. case_decide; split; try done.
  - by intros [= <-].
  - by intros [_ ->].
  - by intros [? _].
Qed.

Lemma getitem_Raise df col e :
  getitem df col = Raise e ↔ (col ∉ columns df) ∧ e = KeyError col.
Proof.
  unfold getitem. case_decide; split; try done.
  - by intros [? _].
  - by intros [= <-].
  - by intros [_ ->].
Qed.

(** Assigning a column computed row by row from the frame itself. *)
Lemma setitem_rows df col (f : gmap string cell → cell) :
  rows (setitem df col (f <$> rows df)) = (λ r, <[col := f r]> r) <$> rows df.
Proof. simpl. by rewrite zip_with_fmap_r, zip_with_diag. Qed.

Lemma elem_of_columns_setitem df col values : col ∈ columns (setitem df col values).
Proof. simpl. unfold with_label. case_decide; [done|]. apply elem_of_app. right. by left. Qed.

Lemma elem_of_with_label cols col c : c ∈ cols → c ∈ with_label cols col.
Proof. unfold with_label. case_decide; [done|]. intros. apply elem_of_app. by left. Qed.

Lemma elem_of_with_label_ne cols col c : c ≠ col → c ∈ with_label cols col → c ∈ cols.
Proof.
  unfold with_label. case_decide; [done|].
  intros Hne [?|Hin%list_elem_of_singleton]%elem_of_app; done.
Qed.

Lemma bind_Ok_l {A B} (a : A) (f : A → result B) : Ok a ≫= f = f a.
Proof. done. Qed.

Lemma cell_at_insert r col v : cell_at (<[col := v]> r) col = v.
Proof. unfold cell_at. by rewrite lookup_insert_eq. Qed.

Lemma cell_at_insert_ne r col col' v :
  col ≠ col' → cell_at (<[col := v]> r) col' = cell_at r col'.
Proof. intros. unfold cell_at. by rewrite lookup_insert_ne. Qed.

(** ** Loading *)

Lemma read_excel_Ok wb name df : read_excel wb name = Ok df ↔ wb !! name = Some df.
Proof.
  unfold read_excel. destruct (wb !! name); split; try done.
  - by intros [= ->].
  - by intros [= ->].
Qed.

Lemma filter_fmap {A B} (f : A → B) (P : B → Prop) `{!∀ y, Decision (P y)}
    (l : list A) :
  filter P (f <$> l) = f <$> filter (P ∘ f) l.
Proof.
  induction l as [|x l IH]; [done|]. csimpl. rewrite !filter_cons. simpl.
  case_decide; csimpl; by rewrite IH.
Qed.

Section load.
Context (parse : list cell → cell → option Z).

Lemma fix_timestamp_Ok sheet out :
  fix_timestamp parse sheet = Ok out
  ↔ "Timestamp" ∈ columns sheet
    ∧ out = sort_values
              (dropna (setitem sheet "datetime"
                         (to_datetime parse (timestamps sheet)))
                      "datetime")
              "datetime".
Proof.
  unfold fix_timestamp. rewrite bind_Ok. split.
  - intros (ts & [Hin ->]%getitem_Ok & [= <-]). done.
  - intros [Hin ->]. exists (timestamps sheet). split; [|done].
    by apply getitem_Ok.
Qed.

Lemma fix_timestamp_Raise sheet e :
  fix_timestamp parse sheet = Raise e
  ↔ ("Timestamp" ∉ columns sheet) ∧ e = KeyError "Timestamp".
Proof.
  unfold fix_timestamp, getitem.
  case_decide; simpl; split; (intros [? ?] || intros ?); by simplify_eq.
Qed.

Lemma fix_timestamp_rows sheet out :
  fix_timestamp parse sheet = Ok out →
  rows out ≡ₚ ((λ r, <["datetime" := Stamp (datetime_of parse sheet r)]> r)
               <$> filter (λ r, is_Some (datetime_of parse sheet r)) (rows sheet)).
Proof.
  intros [_ ->]%fix_timestamp_Ok. cbn [rows sort_values dropna].
  rewrite merge_sort_Permutation.
  assert (to_datetime parse (timestamps sheet)
          = (λ r, Stamp (datetime_of parse sheet r)) <$> rows sheet) as ->.
  { unfold to_datetime, timestamps. by rewrite <-list_fmap_compose. }
  rewrite setitem_rows, filter_fmap.
  rewrite (list_filter_iff _ (λ r, is_Some (datetime_of parse sheet r))); [done|].
  intros r. simpl. rewrite cell_at_insert.
  destruct (datetime_of parse sheet r); simpl; split; (done || by intros []).
Qed.

Lemma fix_timestamp_valid sheet out r :
  fix_timestamp parse sheet = Ok out → r ∈ rows out →
  ∃ t, r !! "datetime" = Some (Stamp (Some t)).
Proof.
  intros Hrows%fix_timestamp_rows. rewrite Hrows.
  intros (r0 & -> & [[t Ht] _]%list_elem_of_filter)%list_elem_of_fmap.
  exists t. by rewrite lookup_insert_eq, Ht.
Qed.

Lemma Sorted_stamps col (l : list (gmap string cell)) :
  Forall (λ r, ∃ t, r !! col = Some (Stamp (Some t))) l →
  Sorted (row_le col) l →
  ∃ ts, (λ r, cell_at r col) <$> l = (λ t, Stamp (Some t)) <$> ts ∧ Sorted Z.le ts.
Proof.
  induction 1 as [|r l [t Ht] Hl IH]; intros Hs.
  - by exists [].
  - apply Sorted_inv in Hs as [Hs Hhd]. destruct (IH Hs) as (ts & Hts & Hsorted).
    exists (t :: ts). csimpl. unfold cell_at at 1. rewrite Ht, Hts. split; [done|].
    constructor; [done|]. destruct Hhd as [|r' l' Hle]; [by destruct ts|].
    destruct ts as [|t' ts]; [done|]. constructor.
    unfold row_le, cell_at in Hle. rewrite Ht in Hle.
    csimpl in Hts. injection Hts as Hr' _. unfold cell_at in Hr'.
    by rewrite Hr' in Hle.
Qed.

Lemma fix_timestamp_sorted sheet out :
  fix_timestamp parse sheet = Ok out →
  ∃ ts, (λ r, cell_at r "datetime") <$> rows out = (λ t, Stamp (Some t)) <$> ts
        ∧ Sorted Z.le ts.
Proof.
  intros Hfix. apply Sorted_stamps.
  - apply Forall_forall. intros r Hr. by eapply fix_timestamp_valid.
  - apply fix_timestamp_Ok in Hfix as [_ ->]. apply Sorted_merge_sort, _.
Qed.

Lemma fix_timestamp_columns sheet out :
  fix_timestamp parse sheet = Ok out →
  columns out = with_label (columns sheet) "datetime".
Proof. by intros [_ ->]%fix_timestamp_Ok. Qed.

Lemma load_data_Ok wb chw_df mthw_df :
  load_data parse wb = Ok (chw_df, mthw_df)
  ↔ ∃ chw_sheet mthw_sheet,
      wb !! CHW_SHEET = Some chw_sheet ∧ wb !! MTHW_SHEET = Some mthw_sheet
      ∧ fix_timestamp parse chw_sheet = Ok chw_df ∧ fix_timestamp parse mthw_sheet = Ok mthw_df.
Proof.
  unfold load_data. split.
  - intros (a & Ha%read_excel_Ok & (b & Hb%read_excel_Ok & (c & Hc
      & (d & Hd & [= <- <-])%bind_Ok)%bind_Ok)%bind_Ok)%bind_Ok.
    by exists a, b.
  - intros (a & b & Ha%read_excel_Ok & Hb%read_excel_Ok & Hc & Hd).
    rewrite Ha. simpl. rewrite Hb. simpl. rewrite Hc. simpl. by rewrite Hd.
Qed.

(** The loader returns whenever both sheets are there with their
    Timestamp column. *)
Lemma load_data_total wb chw_sheet mthw_sheet :
  wb !! CHW_SHEET = Some chw_sheet → wb !! MTHW_SHEET = Some mthw_sheet →
  "Timestamp" ∈ columns chw_sheet → "Timestamp" ∈ columns mthw_sheet →
  ∃ chw_df mthw_df, load_data parse wb = Ok (chw_df, mthw_df).
Proof.
  intros Hchw Hmthw Hc Hm. eexists _, _. apply load_data_Ok.
  exists chw_sheet, mthw_sheet. by rewrite !fix_timestamp_Ok.
Qed.

(** C7, amended: each loaded frame holds exactly the rows of its sheet
    whose timestamp parses, each with that timestamp under "datetime" and
    nothing else changed, in ascending order of "datetime"; rows with
    equal timestamps are all kept. *)
Theorem loaded_frame wb chw_df mthw_df name out :
  load_data parse wb = Ok (chw_df, mthw_df) →
  (name, out) ∈ [(CHW_SHEET, chw_df); (MTHW_SHEET, mthw_df)] →
  ∃ sheet,
    wb !! name = Some sheet
    ∧ rows out ≡ₚ ((λ r, <["datetime" := Stamp (datetime_of parse sheet r)]> r)
                   <$> filter (λ r, is_Some (datetime_of parse sheet r)) (rows sheet))
    ∧ (∃ ts, (λ r, cell_at r "datetime") <$> rows out = (λ t, Stamp (Some t)) <$> ts
             ∧ Sorted Z.le ts)
    ∧ (∀ r, r ∈ rows out →
            ∃ r0, r0 ∈ rows sheet ∧ ∀ col, col ≠ "datetime" → r !! col = r0 !! col)
    ∧ columns sheet ⊆ columns out.
Proof.
  intros (chw_sheet & mthw_sheet & Hchw & Hmthw & Hc & Hm)%load_data_Ok Hin.
  assert (∃ sheet, wb !! name = Some sheet ∧ fix_timestamp parse sheet = Ok out)
    as (sheet & Hsheet & Hfix).
  { apply elem_of_cons in Hin as [[= -> ->]|Hin]; [by exists chw_sheet|].
    apply list_elem_of_singleton in Hin as [= -> ->]. by exists mthw_sheet. }
  exists sheet. split; [done|]. split; [by apply fix_timestamp_rows|].
  split; [by apply (fix_timestamp_sorted sheet)|]. split.
  - intros r Hr. rewrite (fix_timestamp_rows _ _ Hfix) in Hr.
    apply list_elem_of_fmap in Hr as (r0 & -> & [_ Hr0]%list_elem_of_filter).
    exists r0. split; [done|]. intros col Hcol. by rewrite lookup_insert_ne.
  - rewrite (fix_timestamp_columns _ _ Hfix). intros c. apply elem_of_with_label.
Qed.
End load.

(** An instance: the CHW sheet of the sample workbook, one of whose
    timestamps does not parse. *)
Lemma loaded_frame_witness :
  load_data parse_stamps sample_wb = Ok ((loaded sample_wb).1, (loaded sample_wb).2)
  ∧ (CHW_SHEET, (loaded sample_wb).1)
    ∈ [(CHW_SHEET, (loaded sample_wb).1); (MTHW_SHEET, (loaded sample_wb).2)]
  ∧ ∃ ts, (λ r, cell_at r "datetime") <$> rows (loaded sample_wb).1
          = (λ t, Stamp (Some t)) <$> ts
          ∧ Sorted Z.le ts.
Proof.
  assert (load_data parse_stamps sample_wb
          = Ok ((loaded sample_wb).1, (loaded sample_wb).2)) as Hload
    by (vm_compute; reflexivity).
  split; [exact Hload|]. split; [by left|].
  destruct (loaded_frame parse_stamps sample_wb _ _ CHW_SHEET (loaded sample_wb).1 Hload)
    as (sheet & _ & _ & Hsorted & _); [by left|exact Hsorted].
Defined.

(** C7 as stated fails: an hour recorded twice in a sheet is twice in the
    loaded frame. *)
Lemma duplicate_timestamps_kept :
  load_data parse_stamps twice_wb = Ok ((loaded twice_wb).1, (loaded twice_wb).2)
  ∧ (λ r, cell_at r "datetime") <$> rows (loaded twice_wb).1 = [hour 3600; hour 3600]
  ∧ ¬ NoDup ((λ r, cell_at r "datetime") <$> rows (loaded twice_wb).1).
Proof.
  assert ((λ r, cell_at r "datetime") <$> rows (loaded twice_wb).1
          = [hour 3600; hour 3600]) as Hcol by (vm_compute; reflexivity).
  split; [vm_compute; reflexivity|]. split; [exact Hcol|]. rewrite Hcol.
  intros [Hnin _]%NoDup_cons. apply Hnin. by left.
Qed.

(** ** Flags *)

Lemma float_gt_Fin q t : float_gt (Fin q) t = true ↔ (inject_Z t < q)%Q.
Proof.
  simpl. rewrite negb_true_iff, <-not_true_iff_false, Qle_bool_iff.
  split; [apply Qnot_le_lt|apply Qlt_not_le].
Qed.

Lemma float_gt_threshold t : float_gt (Fin (inject_Z t)) t = false.
Proof. apply not_true_iff_false. rewrite float_gt_Fin. apply Qlt_irrefl. Qed.

Lemma cell_gt_mono c t1 t2 :
  (t1 < t2)%Z → cell_gt c t2 = Ok true → cell_gt c t1 = Ok true.
Proof.
  intros Ht. destruct c as [[| | |q]| |[]|]; simpl; try done.
  - intros [= Hq]. f_equal. apply float_gt_Fin in Hq. apply float_gt_Fin.
    eapply Qlt_trans; [|done]. by rewrite <-Zlt_Qlt.
  - intros [= Hq%Z.ltb_lt]. f_equal. apply Z.ltb_lt. lia.
  - intros [= Hq%Z.ltb_lt]. f_equal. apply Z.ltb_lt. lia.
Qed.

Lemma cell_gt_flag c t b : cell_gt c t = Ok b → gt_flag c t = b.
Proof. unfold gt_flag. by intros ->. Qed.

Lemma traverse_fmap {A B} (f : A → result B) (g : A → B) l :
  Forall (λ x, f x = Ok (g x)) l → traverse f l = Ok (g <$> l).
Proof. induction 1 as [|x l Hx _ IH]; [done|]. simpl. by rewrite Hx, IH. Qed.

Lemma series_gt_Ok s t v :
  series_gt s t = Ok v
  ↔ Forall (λ c, ∃ b, cell_gt c t = Ok b) s ∧ v = ((λ c, Bool (gt_flag c t)) <$> s).
Proof.
  unfold series_gt. split.
  - revert v. induction s as [|c s IH]; intros v; simpl.
    + by intros [= <-].
    + intros (y & Hy & (ys & Hys & [= <-])%bind_Ok)%bind_Ok.
      destruct (IH _ Hys) as [Hall ->].
      destruct (cell_gt c t) as [b|] eqn:Hc; [|done]. injection Hy as <-.
      split; [constructor; eauto|]. csimpl. by rewrite (cell_gt_flag _ _ _ Hc).
  - intros [Hall ->]. apply traverse_fmap. eapply Forall_impl; [done|].
    intros c [b Hb]. simpl. by rewrite Hb, (cell_gt_flag _ _ _ Hb).
Qed.

Lemma series_and_flags {A} (f g : A → bool) (l : list A) :
  series_and ((λ x, Bool (f x)) <$> l) ((λ x, Bool (g x)) <$> l)
  = Ok ((λ x, Bool (f x && g x)) <$> l).
Proof.
  unfold series_and. induction l as [|x l IH]; [done|].
  csimpl. by rewrite IH.
Qed.

Lemma mask_rows df (f : gmap string cell → cell) :
  rows (mask df (f <$> rows df)) = filter (λ r, f r = Bool true) (rows df).
Proof.
  simpl. induction (rows df) as [|r l IH]; [done|].
  csimpl. rewrite !filter_cons. simpl. case_decide; csimpl; by rewrite IH.
Qed.

(** The rows of a frame after an assignment computed from one of its columns. *)
Lemma setitem_column df col src (h : cell → cell) :
  rows (setitem df col (h <$> ((λ r, cell_at r src) <$> rows df)))
  = (λ r, <[col := h (cell_at r src)]> r) <$> rows df.
Proof. by rewrite <-list_fmap_compose, setitem_rows. Qed.

Lemma getitem_elem df col :
  col ∈ columns df → getitem df col = Ok ((λ r, cell_at r col) <$> rows df).
Proof. intros. by apply getitem_Ok. Qed.

Lemma series_gt_eval s t :
  Forall (λ c, ∃ b, cell_gt c t = Ok b) s →
  series_gt s t = Ok ((λ c, Bool (gt_flag c t)) <$> s).
Proof. intros. by apply series_gt_Ok. Qed.

Lemma flagged_steps t r :
  let r1 := <["CHW_on" := Bool (gt_flag (cell_at r "CHW") t)]> r in
  let r2 := <["MTHW_on" := Bool (gt_flag (cell_at r1 "MTHW") t)]> r1 in
  cell_at r2 "CHW_on" = Bool (gt_flag (cell_at r "CHW") t)
  ∧ cell_at r2 "MTHW_on" = Bool (gt_flag (cell_at r "MTHW") t)
  ∧ <["simul" := Bool (gt_flag (cell_at r "CHW") t && gt_flag (cell_at r "MTHW") t)]> r2
    = flagged t r.
Proof.
  simpl. rewrite (cell_at_insert_ne r "CHW_on" "MTHW") by done.
  rewrite cell_at_insert, cell_at_insert_ne, cell_at_insert by done. done.
Qed.

Lemma analyze_eval df t :
  "CHW" ∈ columns df → "MTHW" ∈ columns df →
  Forall (λ r, (∃ a, cell_gt (cell_at r "CHW") t = Ok a)
               ∧ ∃ b, cell_gt (cell_at r "MTHW") t = Ok b) (rows df) →
  analyze df t
  = Ok ({| columns := with_label (with_label (with_label (columns df) "CHW_on")
                                   "MTHW_on") "simul";
           rows := flagged t <$> rows df |},
        {| columns := with_label (with_label (with_label (columns df) "CHW_on")
                                   "MTHW_on") "simul";
           rows := filter (λ r, cell_at r "simul" = Bool true)
                          (flagged t <$> rows df) |}).
Proof.
  intros Hc Hm Hall. unfold analyze.
  rewrite getitem_elem, bind_Ok_l by done.
  rewrite series_gt_eval, bind_Ok_l.
  2:{ apply Forall_fmap. eapply Forall_impl; [done|]. by intros r [? _]. }
  set (df1 := setitem df "CHW_on" _).
  assert (rows df1 = (λ r, <["CHW_on" := Bool (gt_flag (cell_at r "CHW") t)]> r)
                     <$> rows df) as Hdf1 by apply setitem_column.
  rewrite (getitem_elem df1 "MTHW"), bind_Ok_l by by apply elem_of_with_label.
  rewrite series_gt_eval, bind_Ok_l.
  2:{ rewrite Hdf1. rewrite !Forall_fmap. eapply Forall_impl; [done|].
      intros r [_ ?]. simpl. by rewrite cell_at_insert_ne. }
  set (df2 := setitem df1 "MTHW_on" _).
  assert (rows df2 = (λ r, <["MTHW_on" := Bool (gt_flag (cell_at r "MTHW") t)]> r)
                     <$> rows df1) as Hdf2 by apply setitem_column.
  rewrite (getitem_elem df2 "CHW_on"), bind_Ok_l
    by apply elem_of_with_label, elem_of_columns_setitem.
  rewrite (getitem_elem df2 "MTHW_on"), bind_Ok_l by apply elem_of_columns_setitem.
  assert ((λ r, cell_at r "CHW_on") <$> rows df2
          = (λ r, Bool (gt_flag (cell_at r "CHW") t)) <$> rows df) as ->.
  { rewrite Hdf2, Hdf1, <-!list_fmap_compose. apply list_fmap_ext.
    intros _ r _. apply (flagged_steps t r). }
  assert ((λ r, cell_at r "MTHW_on") <$> rows df2
          = (λ r, Bool (gt_flag (cell_at r "MTHW") t)) <$> rows df) as ->.
  { rewrite Hdf2, Hdf1, <-!list_fmap_compose. apply list_fmap_ext.
    intros _ r _. apply (flagged_steps t r). }
  rewrite series_and_flags, bind_Ok_l.
  set (df3 := setitem df2 "simul" _).
  assert (rows df3 = flagged t <$> rows df) as Hdf3.
  { unfold df3. cbn [rows setitem]. fold (rows df2). rewrite Hdf2, Hdf1.
    rewrite <-list_fmap_compose, zip_with_fmap_l, zip_with_fmap_r, zip_with_diag.
    apply list_fmap_ext. intros _ r _. apply (flagged_steps t r). }
  rewrite (getitem_elem df3 "simul"), bind_Ok_l by apply elem_of_columns_setitem.
  assert (df3 = {| columns := with_label (with_label (with_label (columns df) "CHW_on")
                                "MTHW_on") "simul";
                   rows := flagged t <$> rows df |}) as Heq.
  { destruct df3 as [c3 r3] eqn:E. simpl in Hdf3. subst r3. f_equal.
    by apply (f_equal columns) in E. }
  f_equal. f_equal; [done|]. rewrite Heq. unfold mask. f_equal.
  apply (mask_rows {| columns := []; rows := _ |} (λ r, cell_at r "simul")).
Qed.

Lemma analyze_Ok df t df' simul_df :
  analyze df t = Ok (df', simul_df) →
  "CHW" ∈ columns df ∧ "MTHW" ∈ columns df
  ∧ Forall (λ r, (∃ a, cell_gt (cell_at r "CHW") t = Ok a)
                 ∧ ∃ b, cell_gt (cell_at r "MTHW") t = Ok b) (rows df).
Proof.
  unfold analyze.
  intros (chw & [Hc ->]%getitem_Ok & (chw_on & [Hall1 ->]%series_gt_Ok
    & (mthw & [Hm ->]%getitem_Ok & (mthw_on & [Hall2 ->]%series_gt_Ok & _)%bind_Ok
      )%bind_Ok)%bind_Ok)%bind_Ok.
  split; [done|]. split; [by apply elem_of_with_label_ne in Hm|].
  rewrite setitem_column in Hall2. rewrite !Forall_fmap in Hall1, Hall2.
  apply Forall_forall. intros r Hr.
  rewrite Forall_forall in Hall1, Hall2. split; [by apply Hall1|].
  specialize (Hall2 _ (list_elem_of_fmap_2 _ _ _ Hr)). simpl in Hall2.
  by rewrite cell_at_insert_ne in Hall2.
Qed.

(** ** Matching pairs *)

Section matching.
Context {A B : Type} (P : A → B → Prop) `{!∀ a b, Decision (P a b)}.
Implicit Types (L : list A) (R : list B).

Lemma matching_nil R : matching P [] R = [].
Proof. done. Qed.

Lemma matching_cons l L R :
  matching P (l :: L) R = ((λ r, (l, r)) <$> filter (P l) R) ++ matching P L R.
Proof.
  unfold matching. csimpl. f_equal.
  induction R as [|r R IH]; [done|]. csimpl. rewrite filter_cons, IH.
  by case_decide.
Qed.

Lemma elem_of_matching L R l r :
  (l, r) ∈ matching P L R ↔ l ∈ L ∧ r ∈ R ∧ P l r.
Proof.
  induction L as [|l' L IH].
  - rewrite matching_nil. split; [by intros ?%elem_of_nil|].
    by intros [?%elem_of_nil _].
  - rewrite matching_cons, elem_of_app, IH, list_elem_of_fmap, elem_of_cons.
    setoid_rewrite list_elem_of_filter. split.
    + intros [(r' & [= -> ->] & ? & ?)|(? & ? & ?)]; eauto.
    + intros ([->|?] & ? & ?); eauto 10.
Qed.



End matching.


Lemma matching_fmap {A B A' B'} (f : A → A') (g : B → B')
    (P : A' → B' → Prop) (Q : A → B → Prop)
    `{!∀ a b, Decision (P a b), !∀ a b, Decision (Q a b)} (L : list A) (R : list B) :
  (∀ l r, Q l r ↔ P (f l) (g r)) →
  matching P (f <$> L) (g <$> R) = prod_map f g <$> matching Q L R.
Proof.
  intros HPQ. induction L as [|l L IH]; [done|].
  rewrite fmap_cons, !matching_cons, fmap_app, IH. f_equal.
  rewrite filter_fmap, <-!list_fmap_compose.
  rewrite (list_filter_iff _ (Q l)) by (intros r; by rewrite HPQ). done.
Qed.

Lemma length_filter_same_key on l (R : list (gmap string cell)) :
  NoDup ((λ r, cell_at r on) <$> R) → length (filter (same_key on l) R) ≤ 1.
Proof.
  induction R as [|r R IH]; [simpl; lia|]. csimpl. intros [Hnin Hnd]%NoDup_cons.
  rewrite filter_cons. case_decide as Hk; [|by apply IH]. clear IH.
  assert (filter (same_key on l) R = []) as ->; [|done].
  destruct (filter _ R) as [|r' ?] eqn:E; [done|].
  assert (r' ∈ filter (same_key on l) R) as [Hk' Hr']%list_elem_of_filter
    by (rewrite E; left).
  exfalso. apply Hnin. unfold same_key in Hk, Hk'. rewrite <-Hk, Hk'.
  by apply (list_elem_of_fmap_2 (λ r, cell_at r on)).
Qed.

(** ** Selecting, merging and renaming *)

Lemma select_Ok df cols out :
  select df cols = Ok out
  ↔ Forall (λ c, c ∈ columns df) cols
    ∧ out = {| columns := cols;
               rows := (λ r, filter (λ kv, kv.1 ∈ cols) r) <$> rows df |}.
Proof.
  unfold select. destruct (filter _ cols) as [|c ?] eqn:E.
  - split; [|by intros [_ ->]]. intros [= <-]. split; [|done].
    apply Forall_forall. intros c Hc.
    destruct (decide (c ∈ columns df)) as [|Hn]; [done|].
    by destruct (filter_nil_not_elem_of _ _ c E Hn).
  - split; [done|]. intros [Hall _].
    assert (c ∈ filter (λ c, c ∉ columns df) cols) as [Hn Hc]%list_elem_of_filter
      by (rewrite E; left).
    rewrite Forall_forall in Hall. by destruct Hn; apply Hall.
Qed.

Lemma cell_at_select (r : gmap string cell) (cols : list string) c :
  c ∈ cols → cell_at (filter (λ kv, kv.1 ∈ cols) r) c = cell_at r c.
Proof.
  intros Hc. unfold cell_at. destruct (r !! c) as [v|] eqn:E.
  - by rewrite (map_lookup_filter_Some_2 _ _ _ v).
  - by rewrite map_lookup_filter_None_2; [|left].
Qed.

Lemma lookup_select_None (r : gmap string cell) (cols : list string) c :
  c ∉ cols → filter (λ kv, kv.1 ∈ cols) r !! c = None.
Proof. intros Hc. apply map_lookup_filter_None_2. right. by intros v _. Qed.

Lemma lookup_select (r : gmap string cell) (cols : list string) c :
  c ∈ cols → filter (λ kv, kv.1 ∈ cols) r !! c = r !! c.
Proof.
  intros Hc. destruct (r !! c) as [v|] eqn:E.
  - by rewrite (map_lookup_filter_Some_2 _ _ _ v).
  - by rewrite map_lookup_filter_None_2; [|left].
Qed.

Lemma label_ne b x y : String.length y < String.length x → b +:+ x ≠ y.
Proof. intros Hlen Heq. apply (f_equal String.length) in Heq. rewrite str_length_app in Heq. lia. Qed.

Lemma chw_col_ne_mthw_col b : b +:+ " CHW (kbtuh)" ≠ b +:+ " MTHW (kbtuh)".
Proof. by intros ?%(inj _). Qed.

Lemma lookup_rename_step (r : gmap string cell) old new c :
  old ≠ new → r !! new = None →
  match r !! old with
  | Some v => <[new := v]> (delete old r)
  | None => r
  end !! c
  = if decide (c = new) then r !! old
    else if decide (c = old) then None else r !! c.
Proof.
  intros Hne Hnew. destruct (r !! old) as [v|] eqn:E; repeat case_decide;
    simplify_map_eq; done.
Qed.

Lemma joined_row_lookup b l r c :
  joined_row b l r !! c
  = if decide (c = "MTHW") then r !! (b +:+ " MTHW (kbtuh)")
    else if decide (c = "CHW") then l !! (b +:+ " CHW (kbtuh)")
    else if decide (c = "datetime")
         then union_with (λ x _, Some x) (l !! "datetime") (r !! "datetime")
         else None.
Proof.
  unfold joined_row.
  set (chw_col := b +:+ " CHW (kbtuh)"). set (mthw_col := b +:+ " MTHW (kbtuh)").
  assert (chw_col ≠ mthw_col) as H1 by apply chw_col_ne_mthw_col.
  assert (∀ y, y ∈ ["datetime"; "CHW"; "MTHW"] → chw_col ≠ y ∧ mthw_col ≠ y) as H2.
  { intros y Hy. split; apply label_ne;
      repeat (apply elem_of_cons in Hy as [->|Hy]; [simpl; lia|]);
      by apply elem_of_nil in Hy. }
  destruct (H2 "datetime") as [Hcd Hmd]; [in_list|].
  destruct (H2 "CHW") as [Hcc Hmc]; [in_list|].
  destruct (H2 "MTHW") as [Hcm Hmm]; [in_list|].
  cbn [rename_row foldl fst snd].
  set (u := _ ∪ _).
  assert (∀ c, u !! c = if decide (c = "datetime")
                        then union_with (λ x _, Some x) (l !! "datetime") (r !! "datetime")
                        else if decide (c = chw_col) then l !! chw_col
                        else if decide (c = mthw_col) then r !! mthw_col
                        else None) as Hu.
  { intros c'. unfold u. rewrite lookup_union. repeat case_decide; subst.
    - rewrite !lookup_select; [done|in_list..].
    - rewrite lookup_select, lookup_select_None; [|not_in_list|in_list].
      by destruct (l !! chw_col).
    - rewrite lookup_select_None, lookup_select; [|in_list|not_in_list].
      by destruct (r !! mthw_col).
    - rewrite !lookup_select_None; [done|not_in_list..]. }
  clearbody u chw_col mthw_col.
  set (u1 := match u !! chw_col with
             | Some v => <["CHW" := v]> (delete chw_col u)
             | None => u
             end).
  assert (∀ c, u1 !! c = if decide (c = "CHW") then u !! chw_col
                         else if decide (c = chw_col) then None else u !! c) as Hu1.
  { intros c'. apply lookup_rename_step; [done|]. rewrite Hu.
    repeat case_decide; first [done|congruence]. }
  clearbody u1. rewrite lookup_rename_step; [|done|].
  2:{ rewrite Hu1, !Hu. repeat case_decide; first [done|congruence]. }
  rewrite !Hu1, !Hu.
  repeat case_decide; first [done|congruence].
Qed.

Lemma cell_at_joined_row_chw b l r :
  cell_at (joined_row b l r) "CHW" = cell_at l (b +:+ " CHW (kbtuh)").
Proof. unfold cell_at. by rewrite joined_row_lookup. Qed.

Lemma cell_at_joined_row_mthw b l r :
  cell_at (joined_row b l r) "MTHW" = cell_at r (b +:+ " MTHW (kbtuh)").
Proof. unfold cell_at. by rewrite joined_row_lookup. Qed.

Lemma cell_at_joined_row_datetime b l r :
  same_key "datetime" l r →
  cell_at (joined_row b l r) "datetime" = cell_at l "datetime"
  ∧ cell_at (joined_row b l r) "datetime" = cell_at r "datetime".
Proof.
  unfold same_key, cell_at. rewrite joined_row_lookup. simpl.
  destruct (l !! "datetime"), (r !! "datetime"); simpl; intros Hk; by rewrite ?Hk.
Qed.

Lemma merged_columns (chw_col mthw_col : string) :
  chw_col ≠ "datetime" → mthw_col ≠ "datetime" → chw_col ≠ mthw_col →
  rename_label [(chw_col, "CHW"); (mthw_col, "MTHW")]
    <$> (["datetime"; chw_col] ++ filter (λ c, c ≠ "datetime") ["datetime"; mthw_col])
  = ["datetime"; "CHW"; "MTHW"].
Proof.
  intros Hc Hm Hcm. rewrite filter_cons, decide_False by (by intros ?).
  rewrite filter_cons, decide_True by done. rewrite filter_nil.
  unfold rename_label. simpl. repeat case_decide; first [done|congruence].
Qed.

Lemma merge_sheets_Ok chw_df mthw_df b df :
  merge_sheets chw_df mthw_df b = Ok df
  ↔ Forall (λ c, c ∈ columns chw_df) ["datetime"; b +:+ " CHW (kbtuh)"]
    ∧ Forall (λ c, c ∈ columns mthw_df) ["datetime"; b +:+ " MTHW (kbtuh)"]
    ∧ df = {| columns := ["datetime"; "CHW"; "MTHW"];
              rows := (λ p, joined_row b p.1 p.2)
                      <$> matching (same_key "datetime") (rows chw_df) (rows mthw_df) |}.
Proof.
  assert (∀ left right,
    left = {| columns := ["datetime"; b +:+ " CHW (kbtuh)"];
              rows := (λ r, filter (λ kv, kv.1 ∈ ["datetime"; b +:+ " CHW (kbtuh)"]) r)
                      <$> rows chw_df |} →
    right = {| columns := ["datetime"; b +:+ " MTHW (kbtuh)"];
               rows := (λ r, filter (λ kv, kv.1 ∈ ["datetime"; b +:+ " MTHW (kbtuh)"]) r)
                       <$> rows mthw_df |} →
    rename (merge left right "datetime")
      [(b +:+ " CHW (kbtuh)", "CHW"); (b +:+ " MTHW (kbtuh)", "MTHW")]
    = {| columns := ["datetime"; "CHW"; "MTHW"];
         rows := (λ p, joined_row b p.1 p.2)
                 <$> matching (same_key "datetime") (rows chw_df) (rows mthw_df) |})
    as Hmerge.
  { intros left right -> ->. unfold rename, merge. cbn [columns rows]. f_equal.
    - apply merged_columns; [by apply label_ne; simpl; lia..|].
      apply chw_col_ne_mthw_col.
    - rewrite (matching_fmap _ _ _ (same_key "datetime")).
      + by rewrite <-!list_fmap_compose.
      + intros l r. unfold same_key.
        rewrite !cell_at_select; [done|in_list..]. }
  unfold merge_sheets. split.
  - intros (left & [Hl ->]%select_Ok & (right & [Hr ->]%select_Ok & [= <-])%bind_Ok)%bind_Ok.
    split; [done|]. split; [done|]. by apply Hmerge.
  - intros (Hl & Hr & ->).
    rewrite (proj2 (select_Ok chw_df _ _) (conj Hl eq_refl)), bind_Ok_l.
    rewrite (proj2 (select_Ok mthw_df _ _) (conj Hr eq_refl)), bind_Ok_l.
    f_equal. by apply Hmerge.
Qed.

(** ** The joined frame *)

Lemma flagged_lookup t r :
  flagged t r !! "CHW_on" = Some (Bool (gt_flag (cell_at r "CHW") t))
  ∧ flagged t r !! "MTHW_on" = Some (Bool (gt_flag (cell_at r "MTHW") t))
  ∧ flagged t r !! "simul"
    = Some (Bool (gt_flag (cell_at r "CHW") t && gt_flag (cell_at r "MTHW") t))
  ∧ ∀ c, c ∉ ["CHW_on"; "MTHW_on"; "simul"] → flagged t r !! c = r !! c.
Proof.
  unfold flagged. repeat split; [by simplify_map_eq..|].
  intros c [? [? [? _]%not_elem_of_cons]%not_elem_of_cons]%not_elem_of_cons.
  by rewrite !lookup_insert_ne.
Qed.

Lemma cell_at_flagged t r c :
  c ∉ ["CHW_on"; "MTHW_on"; "simul"] → cell_at (flagged t r) c = cell_at r c.
Proof. intros Hc. unfold cell_at. by rewrite (proj2 (proj2 (proj2 (flagged_lookup t r)))). Qed.

Lemma merge_and_analyze_Ok chw_df mthw_df b t df simul_df :
  merge_and_analyze chw_df mthw_df b t = Ok (df, simul_df)
  ↔ Forall (λ c, c ∈ columns chw_df) ["datetime"; b +:+ " CHW (kbtuh)"]
    ∧ Forall (λ c, c ∈ columns mthw_df) ["datetime"; b +:+ " MTHW (kbtuh)"]
    ∧ Forall (λ p, (∃ x, cell_gt (cell_at p.1 (b +:+ " CHW (kbtuh)")) t = Ok x)
                   ∧ ∃ y, cell_gt (cell_at p.2 (b +:+ " MTHW (kbtuh)")) t = Ok y)
             (matching (same_key "datetime") (rows chw_df) (rows mthw_df))
    ∧ df = {| columns := ["datetime"; "CHW"; "MTHW"; "CHW_on"; "MTHW_on"; "simul"];
              rows := (λ p, flagged t (joined_row b p.1 p.2))
                      <$> matching (same_key "datetime") (rows chw_df) (rows mthw_df) |}
    ∧ simul_df = {| columns := ["datetime"; "CHW"; "MTHW"; "CHW_on"; "MTHW_on"; "simul"];
                    rows := filter (λ r, cell_at r "simul" = Bool true) (rows df) |}.
Proof.
  unfold merge_and_analyze. rewrite bind_Ok. split.
  - intros (df0 & (Hl & Hr & ->)%merge_sheets_Ok & Han).
    destruct (analyze_Ok _ _ _ _ Han) as (Hc & Hm & Hall).
    rewrite (analyze_eval _ _ Hc Hm Hall) in Han. injection Han as <- <-.
    split; [done|]. split; [done|]. cbn [rows columns] in *. split.
    + rewrite Forall_fmap in Hall. eapply Forall_impl; [done|].
      intros [l r]. simpl.
      by rewrite cell_at_joined_row_chw, cell_at_joined_row_mthw.
    + by rewrite <-list_fmap_compose.
  - intros (Hl & Hr & Hall & -> & ->).
    exists {| columns := ["datetime"; "CHW"; "MTHW"];
              rows := (λ p, joined_row b p.1 p.2)
                      <$> matching (same_key "datetime") (rows chw_df) (rows mthw_df) |}.
    split; [by apply merge_sheets_Ok|].
    rewrite analyze_eval; cbn [rows columns].
    + by rewrite <-list_fmap_compose.
    + in_list.
    + in_list.
    + rewrite Forall_fmap. eapply Forall_impl; [done|]. intros [l r]. simpl.
      by rewrite cell_at_joined_row_chw, cell_at_joined_row_mthw.
Qed.

(** Every row of the joined frame is a matching pair of rows of the two
    loaded frames, with its flags. *)
Lemma joined_rows_elem chw_df mthw_df b t df simul_df x :
  merge_and_analyze chw_df mthw_df b t = Ok (df, simul_df) →
  x ∈ rows df →
  ∃ l r, l ∈ rows chw_df ∧ r ∈ rows mthw_df ∧ same_key "datetime" l r
         ∧ x = flagged t (joined_row b l r)
         ∧ (∃ a, cell_gt (cell_at (joined_row b l r) "CHW") t = Ok a)
         ∧ ∃ a, cell_gt (cell_at (joined_row b l r) "MTHW") t = Ok a.
Proof.
  intros (_ & _ & Hall & -> & _)%merge_and_analyze_Ok. cbn [rows].
  intros ([l r] & -> & Hin)%list_elem_of_fmap.
  rewrite Forall_forall in Hall. destruct (Hall _ Hin) as [Ha Hb].
  apply elem_of_matching in Hin as (Hl & Hr & Hk).
  exists l, r. by rewrite cell_at_joined_row_chw, cell_at_joined_row_mthw.
Qed.

(** C1: the joined frame has a row for every pair of a CHW row and an
    MTHW row with the same timestamp, and no other row, in the order of
    the merge; the row holds the timestamp and the two loads of its pair.
    In every joined row each flag is the strict comparison of its load
    with the threshold and "simul" is their conjunction; [simul_df] is
    made of exactly the joined rows where both loads exceed the threshold,
    in the same order; a load equal to the threshold is not on. *)
Theorem flags_of_joined_rows chw_df mthw_df b t df simul_df :
  merge_and_analyze chw_df mthw_df b t = Ok (df, simul_df) →
  Forall2 (λ p x, cell_at x "datetime" = cell_at p.1 "datetime"
                  ∧ cell_at x "datetime" = cell_at p.2 "datetime"
                  ∧ cell_at x "CHW" = cell_at p.1 (b +:+ " CHW (kbtuh)")
                  ∧ cell_at x "MTHW" = cell_at p.2 (b +:+ " MTHW (kbtuh)"))
    (matching (same_key "datetime") (rows chw_df) (rows mthw_df)) (rows df)
  ∧ (∀ l r, l ∈ rows chw_df → r ∈ rows mthw_df →
            cell_at l "datetime" = cell_at r "datetime" →
            ∃ x, x ∈ rows df
                 ∧ cell_at x "datetime" = cell_at l "datetime"
                 ∧ cell_at x "CHW" = cell_at l (b +:+ " CHW (kbtuh)")
                 ∧ cell_at x "MTHW" = cell_at r (b +:+ " MTHW (kbtuh)"))
  ∧ (∀ x, x ∈ rows df →
          ∃ l r, l ∈ rows chw_df ∧ r ∈ rows mthw_df
                 ∧ cell_at l "datetime" = cell_at r "datetime"
                 ∧ cell_at x "datetime" = cell_at l "datetime"
                 ∧ cell_at x "CHW" = cell_at l (b +:+ " CHW (kbtuh)")
                 ∧ cell_at x "MTHW" = cell_at r (b +:+ " MTHW (kbtuh)"))
  ∧ (∀ r, r ∈ rows df →
       ∃ chw_on mthw_on,
         cell_gt (cell_at r "CHW") t = Ok chw_on
         ∧ cell_gt (cell_at r "MTHW") t = Ok mthw_on
         ∧ r !! "CHW_on" = Some (Bool chw_on)
         ∧ r !! "MTHW_on" = Some (Bool mthw_on)
         ∧ r !! "simul" = Some (Bool (chw_on && mthw_on)))
  ∧ rows simul_df = filter (λ r, cell_at r "simul" = Bool true) (rows df)
  ∧ (∀ r, r ∈ rows simul_df
          ↔ r ∈ rows df
            ∧ cell_gt (cell_at r "CHW") t = Ok true
            ∧ cell_gt (cell_at r "MTHW") t = Ok true)
  ∧ (∀ q, cell_gt (Float (Fin q)) t = Ok true ↔ (inject_Z t < q)%Q)
  ∧ cell_gt (Float (Fin (inject_Z t))) t = Ok false.
Proof.
  intros Hrun.
  assert (∀ x, x ∈ rows df →
             ∃ chw_on mthw_on,
               cell_gt (cell_at x "CHW") t = Ok chw_on
               ∧ cell_gt (cell_at x "MTHW") t = Ok mthw_on
               ∧ x !! "CHW_on" = Some (Bool chw_on)
               ∧ x !! "MTHW_on" = Some (Bool mthw_on)
               ∧ x !! "simul" = Some (Bool (chw_on && mthw_on))) as Hflags.
  { intros x (l & r & _ & _ & _ & -> & [a Ha] & [c Hc])%(joined_rows_elem _ _ _ _ _ _ _ Hrun).
    exists a, c. rewrite !cell_at_flagged by not_in_list.
    destruct (flagged_lookup t (joined_row b l r)) as (-> & -> & -> & _).
    by rewrite (cell_gt_flag _ _ _ Ha), (cell_gt_flag _ _ _ Hc). }
  pose proof Hrun as (_ & _ & _ & Hdf & Hsimul)%merge_and_analyze_Ok.
  assert (∀ l r, same_key "datetime" l r →
                 cell_at (flagged t (joined_row b l r)) "datetime" = cell_at l "datetime"
                 ∧ cell_at (flagged t (joined_row b l r)) "datetime" = cell_at r "datetime"
                 ∧ cell_at (flagged t (joined_row b l r)) "CHW"
                   = cell_at l (b +:+ " CHW (kbtuh)")
                 ∧ cell_at (flagged t (joined_row b l r)) "MTHW"
                   = cell_at r (b +:+ " MTHW (kbtuh)")) as Hpair.
  { intros l r Hk. rewrite !cell_at_flagged by not_in_list.
    destruct (cell_at_joined_row_datetime b l r Hk) as [-> <-].
    by rewrite cell_at_joined_row_chw, cell_at_joined_row_mthw. }
  split; [|split; [|split; [|split; [done|split; [|split; [|split]]]]]].
  - rewrite Hdf. cbn [rows]. apply Forall2_fmap_r, Forall_Forall2_diag, Forall_forall.
    intros [l r] (_ & _ & Hk)%elem_of_matching. by apply Hpair.
  - intros l r Hl Hr Hk. exists (flagged t (joined_row b l r)).
    destruct (Hpair l r Hk) as (? & _ & ? & ?). split; [|done].
    rewrite Hdf. cbn [rows].
    apply (list_elem_of_fmap_2 (λ p, flagged t (joined_row b p.1 p.2)) _ (l, r)).
    by apply elem_of_matching.
  - intros x (l & r & Hl & Hr & Hk & -> & _)%(joined_rows_elem _ _ _ _ _ _ _ Hrun).
    exists l, r. destruct (Hpair l r Hk) as (? & _ & ? & ?). done.
  - by rewrite Hsimul.
  - intros x. rewrite Hsimul. cbn [rows]. rewrite list_elem_of_filter. split.
    + intros [Hon Hx]. split; [done|].
      destruct (Hflags x Hx) as (a & c & Ha & Hc & _ & _ & Hac).
      unfold cell_at in Hon at 1. rewrite Hac in Hon.
      injection Hon as [-> ->]%andb_true_iff. done.
    + intros (Hx & Ha & Hc). split; [|done].
      destruct (Hflags x Hx) as (a & c & Ha' & Hc' & _ & _ & Hac).
      rewrite Ha in Ha'. rewrite Hc in Hc'. injection Ha' as <-. injection Hc' as <-.
      unfold cell_at. by rewrite Hac.
  - intros q. change (cell_gt (Float (Fin q)) t) with (Ok (float_gt (Fin q) t)).
    rewrite <-float_gt_Fin. split; [intros [= H]; exact H|intros H; f_equal; exact H].
  - change (cell_gt (Float (Fin (inject_Z t))) t)
      with (Ok (float_gt (Fin (inject_Z t)) t)).
    by rewrite float_gt_threshold.
Qed.

(** An instance: the Library of the sample workbook at 700. The two
    sheets have three hours in common; both loads exceed 700 in the
    first, the MTHW load does not in the second, and the CHW load, which
    is 700, does not in the third. *)
Lemma flags_of_joined_rows_witness :
  merge_and_analyze (loaded sample_wb).1 (loaded sample_wb).2 "Library" 700
  = Ok ((analysed sample_wb "Library" 700).1, (analysed sample_wb "Library" 700).2)
  ∧ (λ r, [cell_at r "datetime"; cell_at r "CHW"; cell_at r "MTHW";
           cell_at r "CHW_on"; cell_at r "MTHW_on"; cell_at r "simul"])
    <$> rows (analysed sample_wb "Library" 700).1
    = [ [hour 3600; num 750; num 800; Bool true; Bool true; Bool true];
        [hour 7200; num 750; num 650; Bool true; Bool false; Bool false];
        [hour 10800; num 700; num 900; Bool false; Bool true; Bool false] ]
  ∧ (λ r, [cell_at r "datetime"; cell_at r "CHW"; cell_at r "MTHW"])
    <$> rows (analysed sample_wb "Library" 700).2
    = [ [hour 3600; num 750; num 800] ]
  ∧ Forall2 (λ p x, cell_at x "datetime" = cell_at p.1 "datetime"
                    ∧ cell_at x "datetime" = cell_at p.2 "datetime"
                    ∧ cell_at x "CHW" = cell_at p.1 ("Library" +:+ " CHW (kbtuh)")
                    ∧ cell_at x "MTHW" = cell_at p.2 ("Library" +:+ " MTHW (kbtuh)"))
      (matching (same_key "datetime") (rows (loaded sample_wb).1)
         (rows (loaded sample_wb).2))
      (rows (analysed sample_wb "Library" 700).1)
  ∧ rows (analysed sample_wb "Library" 700).2
    = filter (λ r, cell_at r "simul" = Bool true) (rows (analysed sample_wb "Library" 700).1).
Proof.
  assert (merge_and_analyze (loaded sample_wb).1 (loaded sample_wb).2 "Library" 700
          = Ok ((analysed sample_wb "Library" 700).1,
                (analysed sample_wb "Library" 700).2)) as H
    by (vm_compute; reflexivity).
  split; [exact H|]. split; [vm_compute; reflexivity|]. split; [vm_compute; reflexivity|].
  destruct (flags_of_joined_rows _ _ _ _ _ _ H) as (Hpairs & _ & _ & _ & Hsimul & _).
  split; [exact Hpairs|exact Hsimul].
Defined.

(** C3: raising the threshold only removes rows from [simul_df]. *)
Theorem simultaneous_antitone chw_df mthw_df b t1 t2 df1 simul_df1 df2 simul_df2 :
  (t1 < t2)%Z →
  merge_and_analyze chw_df mthw_df b t1 = Ok (df1, simul_df1) →
  merge_and_analyze chw_df mthw_df b t2 = Ok (df2, simul_df2) →
  rows simul_df2 `sublist_of` rows simul_df1
  ∧ ∀ r, r ∈ rows simul_df2 → r ∈ rows simul_df1.
Proof.
  intros Ht (_ & _ & Hall1 & -> & ->)%merge_and_analyze_Ok
    (_ & _ & Hall2 & -> & ->)%merge_and_analyze_Ok.
  cbn [rows].
  assert (filter (λ r, cell_at r "simul" = Bool true)
            ((λ p, flagged t2 (joined_row b p.1 p.2))
             <$> matching (same_key "datetime") (rows chw_df) (rows mthw_df))
          `sublist_of`
          filter (λ r, cell_at r "simul" = Bool true)
            ((λ p, flagged t1 (joined_row b p.1 p.2))
             <$> matching (same_key "datetime") (rows chw_df) (rows mthw_df))) as Hsub.
  { induction (matching _ _ _) as [|[l r] m IH]; [done|].
    apply Forall_cons in Hall1 as [[[a1 Ha1] [c1 Hc1]] Hall1].
    apply Forall_cons in Hall2 as [[[a2 Ha2] [c2 Hc2]] Hall2].
    specialize (IH Hall1 Hall2). csimpl. rewrite !filter_cons.
    simpl in Ha1, Ha2, Hc1, Hc2.
    rewrite <-(cell_at_joined_row_chw b l r) in Ha1, Ha2.
    rewrite <-(cell_at_joined_row_mthw b l r) in Hc1, Hc2.
    set (x := joined_row b l r) in *.
    assert (∀ t a c, cell_gt (cell_at x "CHW") t = Ok a →
                     cell_gt (cell_at x "MTHW") t = Ok c →
                     cell_at (flagged t x) "simul" = Bool (a && c)) as Hsimul.
    { intros t a c Ha Hc. unfold cell_at at 1.
      rewrite (proj1 (proj2 (proj2 (flagged_lookup t x)))).
      by rewrite (cell_gt_flag _ _ _ Ha), (cell_gt_flag _ _ _ Hc). }
    pose proof (Hsimul t1 _ _ Ha1 Hc1) as E1.
    pose proof (Hsimul t2 _ _ Ha2 Hc2) as E2.
    destruct (decide (cell_at (flagged t2 x) "simul" = Bool true)) as [H2|H2].
    - rewrite E2 in H2. injection H2 as [-> ->]%andb_true_iff.
      rewrite (cell_gt_mono _ t1 t2 Ht Ha2) in Ha1.
      rewrite (cell_gt_mono _ t1 t2 Ht Hc2) in Hc1. simplify_eq.
      rewrite decide_True by done.
      assert (flagged t2 x = flagged t1 x) as ->; [|by constructor].
      unfold flagged.
      by rewrite (cell_gt_flag _ _ _ Ha2), (cell_gt_flag _ _ _ Hc2),
        (cell_gt_flag _ _ _ (cell_gt_mono _ t1 t2 Ht Ha2)),
        (cell_gt_flag _ _ _ (cell_gt_mono _ t1 t2 Ht Hc2)).
    - case_decide; [by constructor|done]. }
  split; [done|]. by apply sublist_subseteq.
Qed.

(** An instance: the sample workbook at 700 and at 800. *)
Lemma simultaneous_antitone_witness :
  (700 < 800)%Z
  ∧ merge_and_analyze (loaded sample_wb).1 (loaded sample_wb).2 "Library" 700
    = Ok ((analysed sample_wb "Library" 700).1, (analysed sample_wb "Library" 700).2)
  ∧ merge_and_analyze (loaded sample_wb).1 (loaded sample_wb).2 "Library" 800
    = Ok ((analysed sample_wb "Library" 800).1, (analysed sample_wb "Library" 800).2)
  ∧ rows (analysed sample_wb "Library" 800).2
    `sublist_of` rows (analysed sample_wb "Library" 700).2.
Proof.
  assert (700 < 800)%Z as Ht by lia.
  assert (merge_and_analyze (loaded sample_wb).1 (loaded sample_wb).2 "Library" 700
          = Ok ((analysed sample_wb "Library" 700).1,
                (analysed sample_wb "Library" 700).2)) as H1
    by (vm_compute; reflexivity).
  assert (merge_and_analyze (loaded sample_wb).1 (loaded sample_wb).2 "Library" 800
          = Ok ((analysed sample_wb "Library" 800).1,
                (analysed sample_wb "Library" 800).2)) as H2
    by (vm_compute; reflexivity).
  split; [exact Ht|]. split; [exact H1|]. split; [exact H2|].
  apply (simultaneous_antitone _ _ _ 700 800 _ _ _ _ Ht H1 H2).
Defined.

(** The merge returns whenever the two frames have the columns it selects. *)
Lemma merge_sheets_total chw_df mthw_df b :
  "datetime" ∈ columns chw_df → b +:+ " CHW (kbtuh)" ∈ columns chw_df →
  "datetime" ∈ columns mthw_df → b +:+ " MTHW (kbtuh)" ∈ columns mthw_df →
  ∃ df, merge_sheets chw_df mthw_df b = Ok df.
Proof.
  intros. eexists. apply merge_sheets_Ok.
  split; [|split; [|done]]; by repeat constructor.
Qed.




(** ** The page *)

Section script.
Context {A B : Type}.
Implicit Types (k : A → script B) (page : list element).

Lemma run_show e (m : script B) page : (show e;; m) page = m (page ++ [e]).
Proof. done. Qed.

Lemma run_lift_Ok (a : A) k page : (lift (Ok a) ≫= k) page = k a page.
Proof. done. Qed.

Lemma run_lift_Raise e k page : (lift (Raise e) ≫= k) page = (page, Uncaught e).
Proof. done. Qed.

Lemma run_selectbox label options s (k : option string → script B) page :
  (selectbox label options s ≫= k) page
  = k (chosen options s) (page ++ [StSelectbox label options]).
Proof. done. Qed.

Lemma run_number_input label lo hi value step s (k : Z → script B) page :
  (number_input label lo hi value step s ≫= k) page
  = k (clamp lo hi (entered s)) (page ++ [StNumberInput label lo hi value step]).
Proof. done. Qed.
End script.

Section app.
Context (parse : list cell → cell → option Z).

Lemma app_load_Raise wb s e :
  load_data parse wb = Raise e →
  app parse wb s [] = ([StTitle "Simultaneous Heating + Cooling Analyzer"], Uncaught e).
Proof. intros Hload. unfold app. by rewrite run_show, Hload, run_lift_Raise. Qed.

Lemma app_stop wb s chw_df mthw_df :
  load_data parse wb = Ok (chw_df, mthw_df) →
  chosen (common_buildings (columns chw_df) (columns mthw_df)) s = None →
  app parse wb s []
  = ([StTitle "Simultaneous Heating + Cooling Analyzer";
      StSubheader "Select Building";
      StSelectbox "Choose a building:"
        (common_buildings (columns chw_df) (columns mthw_df))],
     Stopped).
Proof.
  intros Hload Hnone. unfold app. rewrite run_show, Hload, run_lift_Ok.
  by rewrite run_show, run_selectbox, Hnone.
Qed.

Lemma chosen_None options s : chosen options s = None ↔ options = [].
Proof.
  unfold chosen. destruct options as [|b options]; [done|].
  by destruct ((b :: options) !! picked s).
Qed.

Lemma chosen_elem options s b : chosen options s = Some b → b ∈ options.
Proof.
  unfold chosen. destruct (options !! picked s) as [b'|] eqn:E.
  - intros [= <-]. by eapply list_elem_of_lookup_2.
  - destruct options; [done|]. intros [= <-]. by left.
Qed.

Lemma common_buildings_nonempty chw_cols mthw_cols b :
  b ∈ common_buildings chw_cols mthw_cols → b ≠ "".
Proof.
  intros [(col & _ & Hm)%extract_building_names_elem _]%common_buildings_elem.
  by apply re_match_Some in Hm as [? _].
Qed.

Lemma plotting_run b t df simul_df page :
  "datetime" ∈ columns df → "CHW" ∈ columns df → "MTHW" ∈ columns df →
  "datetime" ∈ columns simul_df → "CHW" ∈ columns simul_df →
  let col df c := (λ r, cell_at r c) <$> rows df in
  plotting b t df simul_df page
  = (page ++ [StPyplot {| artists := [Line (col df "datetime") (col df "CHW") "CHW Load";
                                    HLine t "Threshold"];
                        fig_title := b +:+ " — CHW Load";
                        fig_xlabel := "Date"; fig_ylabel := "kbtuh" |};
              StPyplot {| artists := [Line (col df "datetime") (col df "MTHW") "MTHW Load";
                                    HLine t "Threshold"];
                        fig_title := b +:+ " — MTHW Load";
                        fig_xlabel := "Date"; fig_ylabel := "kbtuh" |};
              StPyplot {| artists := [Line (col df "datetime") (col df "CHW") "CHW";
                                    Line (col df "datetime") (col df "MTHW") "MTHW";
                                    HLine t "Threshold";
                                    Scatter (col simul_df "datetime")
                                            (col simul_df "CHW") "Simultaneous H+C"];
                        fig_title := b +:+ " — Simultaneous Heating + Cooling";
                        fig_xlabel := "Date"; fig_ylabel := "kbtuh" |}],
     Done tt).
Proof.
  intros Hd Hc Hm Hsd Hsc col. unfold plotting.
  rewrite !(getitem_elem df) by done. rewrite !(getitem_elem simul_df) by done.
  rewrite !run_lift_Ok, run_show, !run_lift_Ok, run_show, !run_lift_Ok.
  unfold show. by rewrite <-!app_assoc.
Qed.

(** A run that gets through to the download button. *)
Lemma app_Done wb s chw_df mthw_df b df simul_df :
  load_data parse wb = Ok (chw_df, mthw_df) →
  chosen (common_buildings (columns chw_df) (columns mthw_df)) s = Some b →
  merge_and_analyze chw_df mthw_df b (clamp 0 5000 (entered s)) = Ok (df, simul_df) →
  ∃ shown figures,
    select simul_df ["datetime"; "CHW"; "MTHW"] = Ok shown
    ∧ length figures = 3
    ∧ app parse wb s []
      = ([StTitle "Simultaneous Heating + Cooling Analyzer";
          StSubheader "Select Building";
          StSelectbox "Choose a building:"
            (common_buildings (columns chw_df) (columns mthw_df));
          StSuccess ("Selected Building: **" +:+ b +:+ "**");
          StSubheader "Threshold Adjustment";
          StNumberInput "Enter the kBTU/h threshold for determining system 'on' status:"
            0 5000 700 50;
          StInfo ("Using threshold: **" +:+ str (clamp 0 5000 (entered s))
                +:+ " kBTU/h**");
          StSubheader "Simultaneous Heating + Cooling Summary";
          StWrite ("**Total hours detected:** "
                 +:+ str (Z.of_nat (length (rows simul_df))));
          StDataframe shown]
         ++ (StPyplot <$> figures)
         ++ [StSuccess ("Saved output file: **" +:+ out_file b +:+ "**");
             StDownloadButton "Download CSV" (to_csv simul_df) (out_file b)],
         Done tt).
Proof.
  intros Hload Hb Hrun.
  assert (b ≠ "") as Hne
    by (eapply common_buildings_nonempty, chosen_elem, Hb).
  destruct b as [|a b]; [done|]. clear Hne.
  unfold app. rewrite run_show, Hload, run_lift_Ok.
  rewrite run_show, run_selectbox, Hb. cbv beta iota.
  rewrite !run_show, run_number_input, run_show, Hrun, run_lift_Ok. cbv beta iota.
  apply merge_and_analyze_Ok in Hrun as (_ & _ & _ & Hdf & Hsimul).
  assert (columns df = ["datetime"; "CHW"; "MTHW"; "CHW_on"; "MTHW_on"; "simul"])
    as Hcols by by rewrite Hdf.
  assert (columns simul_df = ["datetime"; "CHW"; "MTHW"; "CHW_on"; "MTHW_on"; "simul"])
    as Hscols by by rewrite Hsimul.
  assert (∀ c, c ∈ ["datetime"; "CHW"; "MTHW"] → c ∈ columns df ∧ c ∈ columns simul_df)
    as Hin.
  { intros c Hc. rewrite Hcols, Hscols.
    split; change (c ∈ ["datetime"; "CHW"; "MTHW"] ++ ["CHW_on"; "MTHW_on"; "simul"]);
      apply elem_of_app; by left. }
  pose (col := λ (df : DataFrame) c, (λ r, cell_at r c) <$> rows df).
  pose (t := clamp 0 5000 (entered s)).
  exists {| columns := ["datetime"; "CHW"; "MTHW"];
            rows := (λ r, filter (λ kv, kv.1 ∈ ["datetime"; "CHW"; "MTHW"]) r)
                    <$> rows simul_df |},
    [ {| artists := [Line (col df "datetime") (col df "CHW") "CHW Load";
                     HLine t "Threshold"];
         fig_title := String a b +:+ " — CHW Load";
         fig_xlabel := "Date"; fig_ylabel := "kbtuh" |};
      {| artists := [Line (col df "datetime") (col df "MTHW") "MTHW Load";
                     HLine t "Threshold"];
         fig_title := String a b +:+ " — MTHW Load";
         fig_xlabel := "Date"; fig_ylabel := "kbtuh" |};
      {| artists := [Line (col df "datetime") (col df "CHW") "CHW";
                     Line (col df "datetime") (col df "MTHW") "MTHW";
                     HLine t "Threshold";
                     Scatter (col simul_df "datetime") (col simul_df "CHW")
                             "Simultaneous H+C"];
         fig_title := String a b +:+ " — Simultaneous Heating + Cooling";
         fig_xlabel := "Date"; fig_ylabel := "kbtuh" |} ].
  assert (select simul_df ["datetime"; "CHW"; "MTHW"]
          = Ok {| columns := ["datetime"; "CHW"; "MTHW"];
                  rows := (λ r, filter (λ kv, kv.1 ∈ ["datetime"; "CHW"; "MTHW"]) r)
                          <$> rows simul_df |}) as Hshown.
  { apply select_Ok. split; [|done]. apply Forall_forall. intros c Hc. by apply Hin. }
  split; [done|]. split; [done|].
  rewrite !run_show, Hshown, run_lift_Ok, run_show.
  unfold mbind at 1, script_bind at 1.
  rewrite plotting_run; [|apply Hin; in_list..].
  rewrite run_show. unfold show. by rewrite <-!app_assoc.
Qed.
End app.

(** ** The download *)

Lemma chars_replace old new s :
  String.list_ascii_of_string (replace old new s)
  = (λ c, if decide (c = old) then new else c) <$> String.list_ascii_of_string s.
Proof. induction s as [|c s IH]; [done|]. simpl. by rewrite IH. Qed.

Lemma length_replace old new s : String.length (replace old new s) = String.length s.
Proof. induction s as [|c s IH]; [done|]. simpl. by rewrite IH. Qed.

Lemma replace_gone old new s :
  old ≠ new → old ∉ String.list_ascii_of_string (replace old new s).
Proof.
  intros Hne. rewrite chars_replace. intros (c & Hc & _)%list_elem_of_fmap.
  by case_decide; simplify_eq.
Qed.

(** The records of the download: the three flags are True in each. *)
Lemma to_csv_simul chw_df mthw_df b t df simul_df :
  merge_and_analyze chw_df mthw_df b t = Ok (df, simul_df) →
  header (to_csv simul_df) = ["datetime"; "CHW"; "MTHW"; "CHW_on"; "MTHW_on"; "simul"]
  ∧ records (to_csv simul_df)
    = (λ r, [cell_at r "datetime"; cell_at r "CHW"; cell_at r "MTHW";
             Bool true; Bool true; Bool true]) <$> rows simul_df.
Proof.
  intros Hrun. pose proof (λ x, joined_rows_elem _ _ _ _ _ _ x Hrun) as Helem.
  apply merge_and_analyze_Ok in Hrun as (_ & _ & _ & _ & Hsimul).
  rewrite Hsimul. unfold to_csv. cbn [header records columns rows]. split; [done|].
  apply list_fmap_ext. intros _ r [Hsim Hr]%list_elem_of_lookup_2%list_elem_of_filter.
  destruct (Helem r Hr) as (l & r' & _ & _ & _ & -> & _ & _).
  destruct (flagged_lookup t (joined_row b l r')) as (Ha & Hc & Hac & _).
  unfold cell_at in Hsim. rewrite Hac in Hsim.
  injection Hsim as [Ha' Hc']%andb_true_iff. rewrite Ha' in Ha. rewrite Hc' in Hc.
  rewrite Ha', Hc' in Hac.
  csimpl. unfold cell_at at 4 5 6. by rewrite Ha, Hc, Hac.
Qed.

(** C2, amended: the download holds one record per row of [simul_df], with
    the six columns "datetime", "CHW", "MTHW", "CHW_on", "MTHW_on" and
    "simul" (the three flags True in every record); the file is named
    "simultaneous_", the building name with each space turned into an
    underscore, ".csv". *)
Theorem download_button parse wb s chw_df mthw_df b df simul_df :
  load_data parse wb = Ok (chw_df, mthw_df) →
  chosen (common_buildings (columns chw_df) (columns mthw_df)) s = Some b →
  merge_and_analyze chw_df mthw_df b (clamp 0 5000 (entered s)) = Ok (df, simul_df) →
  (∃ page, app parse wb s [] = (page, Done tt)
           ∧ last page = Some (StDownloadButton "Download CSV" (to_csv simul_df)
                                 (out_file b)))
  ∧ header (to_csv simul_df) = ["datetime"; "CHW"; "MTHW"; "CHW_on"; "MTHW_on"; "simul"]
  ∧ records (to_csv simul_df)
    = ((λ r, [cell_at r "datetime"; cell_at r "CHW"; cell_at r "MTHW";
              Bool true; Bool true; Bool true]) <$> rows simul_df)
  ∧ out_file b = "simultaneous_" +:+ replace " " "_" b +:+ ".csv"
  ∧ String.list_ascii_of_string (replace " " "_" b)
    = ((λ c, if decide (c = " "%char) then "_"%char else c)
       <$> String.list_ascii_of_string b).
Proof.
  intros Hload Hb Hrun. split.
  - destruct (app_Done parse wb s _ _ _ _ _ Hload Hb Hrun)
      as (shown & figures & _ & _ & ->).
    eexists. split; [done|]. by rewrite !last_app.
  - destruct (to_csv_simul _ _ _ _ _ _ Hrun) as [-> ->].
    by rewrite chars_replace.
Qed.

(** An instance: a visit of the sample workbook. *)
Lemma download_button_witness :
  load_data parse_stamps sample_wb = Ok ((loaded sample_wb).1, (loaded sample_wb).2)
  ∧ chosen (common_buildings (columns (loaded sample_wb).1) (columns (loaded sample_wb).2))
      visit = Some "Library"
  ∧ merge_and_analyze (loaded sample_wb).1 (loaded sample_wb).2 "Library"
      (clamp 0 5000 (entered visit))
    = Ok ((analysed sample_wb "Library" 700).1, (analysed sample_wb "Library" 700).2)
  ∧ header (to_csv (analysed sample_wb "Library" 700).2)
    = ["datetime"; "CHW"; "MTHW"; "CHW_on"; "MTHW_on"; "simul"].
Proof.
  assert (load_data parse_stamps sample_wb
          = Ok ((loaded sample_wb).1, (loaded sample_wb).2)) as H1
    by (vm_compute; reflexivity).
  assert (chosen (common_buildings (columns (loaded sample_wb).1)
                    (columns (loaded sample_wb).2)) visit = Some "Library") as H2
    by (vm_compute; reflexivity).
  assert (merge_and_analyze (loaded sample_wb).1 (loaded sample_wb).2 "Library"
            (clamp 0 5000 (entered visit))
          = Ok ((analysed sample_wb "Library" 700).1,
                (analysed sample_wb "Library" 700).2)) as H3
    by (vm_compute; reflexivity).
  split; [exact H1|]. split; [exact H2|]. split; [exact H3|].
  apply (download_button parse_stamps sample_wb visit _ _ _ _ _ H1 H2 H3).
Defined.

(** C2 as stated fails: the download has the three flag columns too. *)
Lemma download_has_flag_columns :
  last (app parse_stamps sample_wb visit []).1
  = Some (StDownloadButton "Download CSV" (to_csv (analysed sample_wb "Library" 700).2)
            "simultaneous_Library.csv")
  ∧ header (to_csv (analysed sample_wb "Library" 700).2)
    = ["datetime"; "CHW"; "MTHW"; "CHW_on"; "MTHW_on"; "simul"]
  ∧ header (to_csv (analysed sample_wb "Library" 700).2) ≠ ["datetime"; "CHW"; "MTHW"].
Proof.
  assert (header (to_csv (analysed sample_wb "Library" 700).2)
          = ["datetime"; "CHW"; "MTHW"; "CHW_on"; "MTHW_on"; "simul"]) as Hheader
    by (vm_compute; reflexivity).
  split; [vm_compute; reflexivity|]. split; [exact Hheader|]. by rewrite Hheader.
Qed.

(** ** Failures *)

(** C5: a label with characters after "(kbtuh)" is not ignored. Its prefix
    is taken as a building name although the label does not have the exact
    form, and the run for that building ends at the merge, which looks for
    the exact label. *)
Theorem trailing_characters_accepted :
  extract_building_names ["Timestamp"; "Library CHW (kbtuh) old"] "CHW" = ["Library"]
  ∧ "Library CHW (kbtuh) old" ≠ "Library" +:+ " " +:+ "CHW" +:+ " (kbtuh)"
  ∧ chosen (common_buildings (columns (loaded stale_wb).1) (columns (loaded stale_wb).2))
      visit = Some "Library"
  ∧ (app parse_stamps stale_wb visit []).2 = Uncaught (KeyError "Library CHW (kbtuh)").
Proof.
  split; [by vm_compute|]. split; [done|].
  split; vm_compute; reflexivity.
Qed.



(** C9, amended: when no building is in both sheets the run stops after the
    title, the heading and the empty select box; it shows no message and
    goes no further. *)
Theorem no_common_building parse wb s chw_df mthw_df :
  load_data parse wb = Ok (chw_df, mthw_df) →
  common_buildings (columns chw_df) (columns mthw_df) = [] →
  app parse wb s []
  = ([StTitle "Simultaneous Heating + Cooling Analyzer";
      StSubheader "Select Building";
      StSelectbox "Choose a building:" []],
     Stopped)
  ∧ ∀ e, e ∈ (app parse wb s []).1 → is_message e = false.
Proof.
  intros Hload Hnone.
  assert (app parse wb s []
          = ([StTitle "Simultaneous Heating + Cooling Analyzer";
              StSubheader "Select Building";
              StSelectbox "Choose a building:" []], Stopped)) as Happ.
  { rewrite <-Hnone. apply app_stop; [done|]. by apply chosen_None. }
  split; [done|]. rewrite Happ. simpl.
  intros e He. repeat (apply elem_of_cons in He as [->|He]; [done|]).
  by apply elem_of_nil in He.
Qed.

(** An instance: Annex in one sheet, Library in the other. *)
Lemma no_common_building_witness :
  load_data parse_stamps annex_wb = Ok ((loaded annex_wb).1, (loaded annex_wb).2)
  ∧ common_buildings (columns (loaded annex_wb).1) (columns (loaded annex_wb).2) = []
  ∧ (app parse_stamps annex_wb visit []).2 = Stopped.
Proof.
  assert (load_data parse_stamps annex_wb
          = Ok ((loaded annex_wb).1, (loaded annex_wb).2)) as H1
    by (vm_compute; reflexivity).
  assert (common_buildings (columns (loaded annex_wb).1) (columns (loaded annex_wb).2)
          = []) as H2 by (vm_compute; reflexivity).
  split; [exact H1|]. split; [exact H2|].
  by rewrite (proj1 (no_common_building parse_stamps annex_wb visit _ _ H1 H2)).
Defined.

(** C9 as stated fails: the run stops without a word of explanation. *)
Lemma stop_without_message :
  app parse_stamps annex_wb visit []
  = ([StTitle "Simultaneous Heating + Cooling Analyzer";
      StSubheader "Select Building";
      StSelectbox "Choose a building:" []],
     Stopped)
  ∧ ¬ ∃ e, e ∈ (app parse_stamps annex_wb visit []).1 ∧ is_message e = true.
Proof.
  assert (app parse_stamps annex_wb visit []
          = ([StTitle "Simultaneous Heating + Cooling Analyzer";
              StSubheader "Select Building";
              StSelectbox "Choose a building:" []], Stopped)) as Happ
    by (vm_compute; reflexivity).
  split; [done|]. rewrite Happ. simpl. intros (e & He & Hm).
  repeat (apply elem_of_cons in He as [->|He]; [done|]).
  by apply elem_of_nil in He.
Qed.

(** ** More on the building names *)

Section more_names.
Implicit Types s b g lit rest col : string.

(** The group stops at the first place where the pattern follows. *)
Lemma lazy_dot_plus_shortest lit g0 col g :
  lazy_dot_plus lit g0 col = Some g →
  ∃ b rest, b ≠ "" ∧ g = g0 +:+ b ∧ col = b +:+ lit +:+ rest
            ∧ contains (String newline "") b = false
            ∧ ∀ x u, b = x +:+ u → x ≠ "" → u ≠ "" →
                     String.prefix lit (u +:+ lit +:+ rest) = false.
Proof.
  revert g0. induction col as [|c col IH]; intros g0; [done|].
  cbn [lazy_dot_plus]. destruct (decide (c = newline)) as [|Hc]; [done|].
  assert (contains (String newline "") (String c "") = false) as Hone.
  { apply contains_char. simpl. rewrite list_elem_of_singleton. congruence. }
  destruct (String.prefix lit col) eqn:Hp.
  - intros [= <-]. apply prefix_app in Hp as [rest ->].
    exists (String c ""), rest. repeat split; [done..|].
    intros x u Hxu Hx Hu. apply (f_equal String.length) in Hxu.
    rewrite str_length_app in Hxu. destruct x, u; simpl in *; (done || lia).
  - intros (b & rest & Hb & -> & -> & Hnl & Hmin)%IH.
    exists (String c b), rest. split; [done|]. split.
    { by rewrite str_app_assoc. }
    split; [done|]. split.
    { apply contains_char. simpl.
      apply not_elem_of_cons. split; [congruence|]. by apply contains_char. }
    intros x u Hxu Hx Hu. destruct x as [|c' x]; [done|].
    rewrite str_app_cons in Hxu. injection Hxu as <- Hxu.
    destruct x as [|c'' x].
    + rewrite str_app_nil_l in Hxu. by subst u.
    + by apply (Hmin (String c'' x) u).
Qed.

(** A label in which the pattern occurs nowhere gives no name. *)
Lemma lazy_dot_plus_None lit g col :
  contains lit col = false → lazy_dot_plus lit g col = None.
Proof.
  revert g. induction col as [|c col IH]; intros g; [done|].
  cbn [contains lazy_dot_plus].
  intros [_ Hc]%orb_false_iff. destruct (decide (c = newline)); [done|].
  assert (String.prefix lit col = false) as ->.
  { destruct col; cbn [contains] in Hc; by apply orb_false_iff in Hc as [? _]. }
  by apply IH.
Qed.

Lemma extract_building_names_app cols1 cols2 s :
  extract_building_names (cols1 ++ cols2) s
  = extract_building_names cols1 s ++ extract_building_names cols2 s.
Proof. rewrite !extract_building_names_omap. apply omap_app. Qed.

(** X1: for a suffix of literal characters, the names read from the
    labels are exactly the shortest beginnings of a label, not empty and
    without a line break, after which a space, the suffix and " (kbtuh)"
    follow. *)
Theorem extracted_name_is_shortest_prefix cols s g :
  re_literal s = true →
  g ∈ extract_building_names cols s
  ↔ ∃ col rest,
      col ∈ cols
      ∧ col = g +:+ (" " +:+ s +:+ " (kbtuh)") +:+ rest
      ∧ g ≠ ""
      ∧ contains (String newline "") g = false
      ∧ ∀ x u, g = x +:+ u → x ≠ "" → u ≠ "" →
               String.prefix (" " +:+ s +:+ " (kbtuh)")
                 (u +:+ (" " +:+ s +:+ " (kbtuh)") +:+ rest) = false.
Proof.
  intros _. rewrite extract_building_names_elem. unfold re_match. split.
  - intros (col & Hcol & (b & rest & Hb & -> & -> & Hnl & Hmin)%lazy_dot_plus_shortest).
    rewrite str_app_nil_l. by exists (b +:+ (" " +:+ s +:+ " (kbtuh)") +:+ rest), rest.
  - intros (col & rest & Hcol & -> & Hg & Hnl & Hmin).
    eexists. split; [done|].
    by rewrite lazy_dot_plus_first, str_app_nil_l.
Qed.

(** An instance: the label of the Library with something after
    "(kbtuh)". *)
Lemma extracted_name_is_shortest_prefix_witness :
  re_literal "CHW" = true
  ∧ "Library" ∈ extract_building_names ["Timestamp"; "Library CHW (kbtuh) old"] "CHW"
  ∧ ∃ col rest,
      col ∈ ["Timestamp"; "Library CHW (kbtuh) old"]
      ∧ col = "Library" +:+ (" " +:+ "CHW" +:+ " (kbtuh)") +:+ rest.
Proof.
  assert (re_literal "CHW" = true) as Hs by reflexivity.
  assert ("Library"
          ∈ extract_building_names ["Timestamp"; "Library CHW (kbtuh) old"] "CHW")
    as Hin.
  { assert (extract_building_names ["Timestamp"; "Library CHW (kbtuh) old"] "CHW"
            = ["Library"]) as -> by reflexivity.
    apply list_elem_of_here. }
  split; [exact Hs|]. split; [exact Hin|].
  destruct (proj1 (extracted_name_is_shortest_prefix _ "CHW" "Library" Hs) Hin)
    as (col & rest & Hcol & Heq & _).
  exists col, rest. split; [exact Hcol|exact Heq].
Defined.

(** X2: for a suffix of literal characters, a label in which a space, the
    suffix and " (kbtuh)" occur nowhere is passed over: the names are
    those of the labels before it, then those of the labels after it. *)
Theorem unrelated_label_skipped cols1 col cols2 s :
  re_literal s = true →
  contains (" " +:+ s +:+ " (kbtuh)") col = false →
  extract_building_names (cols1 ++ col :: cols2) s
  = extract_building_names cols1 s ++ extract_building_names cols2 s.
Proof.
  intros _ Hno. rewrite extract_building_names_app. f_equal.
  change (col :: cols2) with ([col] ++ cols2).
  rewrite extract_building_names_app, extract_building_names_omap. simpl.
  unfold re_match. by rewrite lazy_dot_plus_None.
Qed.

(** An instance: the Timestamp label between two building labels. *)
Lemma unrelated_label_skipped_witness :
  re_literal "CHW" = true
  ∧ contains (" " +:+ "CHW" +:+ " (kbtuh)") "Timestamp" = false
  ∧ extract_building_names
      (["Annex CHW (kbtuh)"] ++ "Timestamp" :: ["Library CHW (kbtuh)"]) "CHW"
    = extract_building_names ["Annex CHW (kbtuh)"] "CHW"
      ++ extract_building_names ["Library CHW (kbtuh)"] "CHW".
Proof.
  split; [reflexivity|]. split; [reflexivity|].
  apply (unrelated_label_skipped ["Annex CHW (kbtuh)"] "Timestamp"
           ["Library CHW (kbtuh)"] "CHW"); reflexivity.
Defined.
End more_names.

(** ** The output file name *)

(** X3: the file name never has a space in it, is seventeen characters
    longer than the building name, and is the same for two names that
    differ only in spaces written as underscores. *)
Theorem out_file_no_space b :
  (" "%char ∉ String.list_ascii_of_string (out_file b))
  ∧ String.length (out_file b) = String.length b + 17
  ∧ out_file (replace " " "_" b) = out_file b.
Proof.
  unfold out_file. split; [|split].
  - rewrite !chars_app. rewrite !not_elem_of_app. split; [|split].
    + simpl. not_in_list.
    + by apply replace_gone.
    + simpl. not_in_list.
  - rewrite !str_length_app, length_replace. simpl. lia.
  - do 2 f_equal. apply chars_inj. rewrite !chars_replace, <-list_fmap_compose.
    apply list_fmap_ext. intros _ c _. simpl. by repeat case_decide.
Qed.

(** ** The outcomes of loading *)

Section more_load.
Context (parse : list cell → cell → option Z).

(** X4: loading reads both sheets before it touches a Timestamp column.
    It raises the error that names the CHW sheet exactly when that sheet
    is missing, and the one that names the MTHW sheet exactly when the
    CHW sheet is there and the MTHW sheet is not. When both sheets are
    there and the CHW sheet has no Timestamp column it raises KeyError
    "Timestamp"; it raises that error only when a sheet lacks the
    column, and returns only when both sheets have it. *)
Theorem load_data_outcome wb :
  (load_data parse wb = Raise (ValueError "Worksheet named 'CHW hourly' not found")
   ↔ wb !! CHW_SHEET = None)
  ∧ (load_data parse wb = Raise (ValueError "Worksheet named 'MTHW hourly' not found")
     ↔ is_Some (wb !! CHW_SHEET) ∧ wb !! MTHW_SHEET = None)
  ∧ (∀ chw, wb !! CHW_SHEET = Some chw → is_Some (wb !! MTHW_SHEET) →
            "Timestamp" ∉ columns chw →
            load_data parse wb = Raise (KeyError "Timestamp"))
  ∧ (load_data parse wb = Raise (KeyError "Timestamp") →
     ∃ chw mthw, wb !! CHW_SHEET = Some chw ∧ wb !! MTHW_SHEET = Some mthw
                 ∧ ("Timestamp" ∉ columns chw ∨ "Timestamp" ∉ columns mthw))
  ∧ (∀ frames, load_data parse wb = Ok frames →
               ∃ chw mthw, wb !! CHW_SHEET = Some chw ∧ wb !! MTHW_SHEET = Some mthw
                           ∧ "Timestamp" ∈ columns chw ∧ "Timestamp" ∈ columns mthw).
Proof.
  unfold load_data, read_excel.
  destruct (wb !! CHW_SHEET) as [chw|] eqn:Hchw.
  2:{ simpl. repeat split; first [done|by intros [[? ?] _]]. }
  destruct (wb !! MTHW_SHEET) as [mthw|] eqn:Hmthw.
  2:{ simpl. repeat split; first [done|by eauto|by intros ? _ [? ?]]. }
  rewrite !bind_Ok_l.
  destruct (fix_timestamp parse chw) as [chw_df|e] eqn:Hc.
  - apply fix_timestamp_Ok in Hc as [Hc _].
    destruct (fix_timestamp parse mthw) as [mthw_df|e] eqn:Hm; simpl.
    + apply fix_timestamp_Ok in Hm as [Hm _].
      repeat split;
        first [done|by intros [_ ?]|by intros ? [= <-] _ ?
              |intros; by exists chw, mthw].
    + apply fix_timestamp_Raise in Hm as [Hm ->].
      repeat split;
        first [done|by intros [_ ?]|by intros ? [= <-] _ ?
              |intros; exists chw, mthw; by auto].
  - apply fix_timestamp_Raise in Hc as [Hc ->]. simpl.
    repeat split;
      first [done|by intros [_ ?]|intros; exists chw, mthw; by auto].
Qed.

Lemma extract_with_datetime cols s :
  s ∈ ["CHW"; "MTHW"] →
  extract_building_names (with_label cols "datetime") s = extract_building_names cols s.
Proof.
  intros Hs. unfold with_label. case_decide; [done|].
  rewrite extract_building_names_app, !extract_building_names_omap.
  assert (re_match s "datetime" = None) as Hnone.
  { apply elem_of_cons in Hs as [->|Hs]; [done|].
    by apply list_elem_of_singleton in Hs as ->. }
  cbn [omap list_omap]. by rewrite Hnone, app_nil_r.
Qed.

(** X5: the buildings offered are those of the labels of the two sheets;
    the datetime column that loading adds is not taken for a building. *)
Theorem buildings_of_sheets wb chw_df mthw_df :
  load_data parse wb = Ok (chw_df, mthw_df) →
  ∃ chw_sheet mthw_sheet,
    wb !! CHW_SHEET = Some chw_sheet ∧ wb !! MTHW_SHEET = Some mthw_sheet
    ∧ extract_building_names (columns chw_df) "CHW"
      = extract_building_names (columns chw_sheet) "CHW"
    ∧ extract_building_names (columns mthw_df) "MTHW"
      = extract_building_names (columns mthw_sheet) "MTHW"
    ∧ common_buildings (columns chw_df) (columns mthw_df)
      = common_buildings (columns chw_sheet) (columns mthw_sheet).
Proof.
  intros (chw_sheet & mthw_sheet & Hchw & Hmthw & Hc & Hm)%load_data_Ok.
  exists chw_sheet, mthw_sheet. split; [done|]. split; [done|].
  apply fix_timestamp_columns in Hc, Hm. unfold common_buildings.
  rewrite Hc, Hm, !extract_with_datetime; [done|in_list..].
Qed.
End more_load.

(** An instance: the sample workbook. *)
Lemma buildings_of_sheets_witness :
  load_data parse_stamps sample_wb = Ok ((loaded sample_wb).1, (loaded sample_wb).2)
  ∧ common_buildings (columns (loaded sample_wb).1) (columns (loaded sample_wb).2)
    = common_buildings (columns sample_chw) (columns sample_mthw).
Proof.
  assert (load_data parse_stamps sample_wb
          = Ok ((loaded sample_wb).1, (loaded sample_wb).2)) as Hload
    by (vm_compute; reflexivity).
  split; [exact Hload|].
  destruct (buildings_of_sheets parse_stamps sample_wb _ _ Hload)
    as (chw_sheet & mthw_sheet & Hchw & Hmthw & _ & _ & ->).
  assert (sample_wb !! CHW_SHEET = Some sample_chw) as Hchw' by reflexivity.
  assert (sample_wb !! MTHW_SHEET = Some sample_mthw) as Hmthw' by reflexivity.
  rewrite Hchw' in Hchw. rewrite Hmthw' in Hmthw.
  injection Hchw as <-. injection Hmthw as <-. reflexivity.
Defined.

(** ** The order and the number of the joined rows *)

Lemma StronglySorted_sublist {A} (R : relation A) (l1 l2 : list A) :
  l1 `sublist_of` l2 → StronglySorted R l2 → StronglySorted R l1.
Proof.
  induction 1 as [|x l1 l2 Hsub IH|x l1 l2 Hsub IH]; [done|..].
  - intros [Hall Hs]%StronglySorted_cons. apply StronglySorted_cons.
    split; [|by apply IH]. rewrite Forall_forall in Hall. apply Forall_forall.
    intros y Hy. apply Hall. by eapply elem_of_sublist.
  - intros [_ Hs]%StronglySorted_cons. by apply IH.
Qed.

Section matching_order.
Context {A B : Type} (P : A → B → Prop) `{!∀ a b, Decision (P a b)}.
Implicit Types (L : list A) (R : list B).

(** The left rows of the matching pairs come in the order of the left
    frame, each as often as it has a match. *)
Lemma matching_keys_sorted (key : A → Z) L R :
  StronglySorted Z.le (key <$> L) →
  StronglySorted Z.le ((λ p, key p.1) <$> matching P L R).
Proof.
  induction L as [|l L IH]; [by rewrite matching_nil|].
  rewrite fmap_cons. intros [Hall Hs]%StronglySorted_cons.
  rewrite matching_cons, fmap_app, <-list_fmap_compose.
  apply StronglySorted_app_2; [| |by apply IH].
  - intros x1 x2 (r & -> & _)%list_elem_of_fmap
      ([l' r'] & -> & (Hl' & _ & _)%elem_of_matching)%list_elem_of_fmap.
    simpl. rewrite Forall_fmap, Forall_forall in Hall. by apply Hall.
  - induction (filter (P l) R) as [|r rs IHr]; [constructor|].
    csimpl. apply StronglySorted_cons. split; [|done].
    apply Forall_fmap, Forall_forall. intros r' _. simpl. lia.
Qed.

Lemma matching_fst_sublist L R :
  (∀ l, l ∈ L → length (filter (P l) R) ≤ 1) →
  (matching P L R).*1 `sublist_of` L.
Proof.
  induction L as [|l L IH]; intros Hone; [by rewrite matching_nil|].
  rewrite matching_cons, fmap_app, <-list_fmap_compose.
  specialize (Hone l (list_elem_of_here _ _)) as Hl.
  assert ((matching P L R).*1 `sublist_of` L) as Hsub.
  { apply IH. intros l' Hl'. apply Hone. by right. }
  destruct (filter (P l) R) as [|r [|r' rs]]; simpl in *.
  - by apply sublist_cons.
  - by apply sublist_skip.
  - lia.
Qed.

Lemma length_matching_filter L R :
  (∀ l, l ∈ L → length (filter (P l) R) ≤ 1) →
  length (matching P L R) = length (filter (λ l, Exists (P l) R) L).
Proof.
  induction L as [|l L IH]; intros Hone; [by rewrite matching_nil|].
  rewrite matching_cons, length_app, length_fmap, filter_cons.
  specialize (Hone l (list_elem_of_here _ _)) as Hl.
  rewrite IH by (intros l' Hl'; apply Hone; by right).
  destruct (filter (P l) R) as [|r rs] eqn:E.
  - rewrite decide_False; [done|]. intros (r & Hr & HP)%Exists_exists.
    assert (r ∈ filter (P l) R) as Hin by by apply list_elem_of_filter.
    rewrite E in Hin. by apply elem_of_nil in Hin.
  - assert (r ∈ filter (P l) R) as [HP Hr]%list_elem_of_filter by (rewrite E; left).
    rewrite decide_True by (apply Exists_exists; eauto).
    destruct rs; simpl in *; lia.
Qed.
End matching_order.

(** The timestamps of the joined frame are those of the left rows of the
    matching pairs. *)
Lemma joined_datetime chw_df mthw_df b t df simul_df :
  merge_and_analyze chw_df mthw_df b t = Ok (df, simul_df) →
  (λ r, cell_at r "datetime") <$> rows df
  = (λ p, cell_at p.1 "datetime")
    <$> matching (same_key "datetime") (rows chw_df) (rows mthw_df).
Proof.
  intros (_ & _ & _ & -> & _)%merge_and_analyze_Ok. cbn [rows].
  rewrite <-list_fmap_compose. apply list_fmap_ext.
  intros _ [l r] (_ & _ & Hk)%list_elem_of_lookup_2%elem_of_matching. simpl.
  rewrite cell_at_flagged by not_in_list.
  by apply cell_at_joined_row_datetime.
Qed.

Lemma simul_sublist chw_df mthw_df b t df simul_df :
  merge_and_analyze chw_df mthw_df b t = Ok (df, simul_df) →
  rows simul_df `sublist_of` rows df.
Proof.
  intros (_ & _ & _ & _ & ->)%merge_and_analyze_Ok. apply sublist_filter.
Qed.

Section more_join.
Context (parse : list cell → cell → option Z).

(** X6: the joined frame is in time order, and so are the simultaneous
    hours, which are some of its rows in the same order: loading sorts
    each sheet and the merge keeps the order of the CHW rows. *)
Theorem joined_in_time_order wb chw_df mthw_df b t df simul_df :
  load_data parse wb = Ok (chw_df, mthw_df) →
  merge_and_analyze chw_df mthw_df b t = Ok (df, simul_df) →
  ∃ ts sts,
    (λ r, cell_at r "datetime") <$> rows df = (λ x, Stamp (Some x)) <$> ts
    ∧ Sorted Z.le ts
    ∧ (λ r, cell_at r "datetime") <$> rows simul_df = (λ x, Stamp (Some x)) <$> sts
    ∧ Sorted Z.le sts
    ∧ sts `sublist_of` ts.
Proof.
  intros (chw_sheet & _ & _ & _ & Hc & _)%load_data_Ok Hrun.
  pose (key := λ r : gmap string cell, default 0%Z (stamp_of (cell_at r "datetime"))).
  assert (∀ r, r ∈ rows chw_df → cell_at r "datetime" = Stamp (Some (key r))) as Hkey.
  { intros r [x Hx]%(fix_timestamp_valid parse chw_sheet chw_df); [|done].
    unfold key, cell_at. by rewrite Hx. }
  assert (∀ r, r ∈ rows df → cell_at r "datetime" = Stamp (Some (key r))) as Hdf.
  { intros x (l & r & Hl & _ & Hk & -> & _)%(joined_rows_elem _ _ _ _ _ _ _ Hrun).
    unfold key. rewrite cell_at_flagged by not_in_list.
    rewrite (proj1 (cell_at_joined_row_datetime b l r Hk)).
    by rewrite (Hkey l Hl). }
  pose proof (simul_sublist _ _ _ _ _ _ Hrun) as Hsub.
  assert (StronglySorted Z.le (key <$> rows df)) as Hsorted.
  { destruct (fix_timestamp_sorted parse chw_sheet chw_df Hc) as (ts & Hts & Hs).
    assert (key <$> rows chw_df = ts) as Hks.
    { assert (Inj (=) (=) (λ x : Z, Stamp (Some x))) as Hinj by by intros ?? [= ?].
      apply (list_fmap_eq_inj _ Hinj). rewrite <-Hts, <-list_fmap_compose.
      apply list_fmap_ext. intros _ r Hr%list_elem_of_lookup_2. simpl.
      by rewrite (Hkey r Hr). }
    apply (Sorted_StronglySorted Z.le) in Hs. rewrite <-Hks in Hs.
    pose proof (matching_keys_sorted (same_key "datetime") key
                  (rows chw_df) (rows mthw_df) Hs) as Hm.
    assert (key <$> rows df
            = (λ p, key p.1)
              <$> matching (same_key "datetime") (rows chw_df) (rows mthw_df)) as ->;
      [|done].
    transitivity ((λ c, default 0%Z (stamp_of c))
                  <$> ((λ r, cell_at r "datetime") <$> rows df)).
    { by rewrite <-list_fmap_compose. }
    rewrite (joined_datetime _ _ _ _ _ _ Hrun).
    by rewrite <-list_fmap_compose. }
  exists (key <$> rows df), (key <$> rows simul_df).
  split; [|split; [|split; [|split]]].
  - rewrite <-list_fmap_compose. apply list_fmap_ext.
    intros _ r Hr%list_elem_of_lookup_2. by apply Hdf.
  - by apply StronglySorted_Sorted.
  - rewrite <-list_fmap_compose. apply list_fmap_ext.
    intros _ r Hr%list_elem_of_lookup_2. apply Hdf. by eapply elem_of_sublist.
  - apply StronglySorted_Sorted.
    eapply StronglySorted_sublist; [|done]. by apply fmap_sublist.
  - by apply fmap_sublist.
Qed.
End more_join.

(** An instance: the Library of the sample workbook. *)
Lemma joined_in_time_order_witness :
  load_data parse_stamps sample_wb = Ok ((loaded sample_wb).1, (loaded sample_wb).2)
  ∧ merge_and_analyze (loaded sample_wb).1 (loaded sample_wb).2 "Library" 700
    = Ok ((analysed sample_wb "Library" 700).1, (analysed sample_wb "Library" 700).2)
  ∧ ∃ ts, (λ r, cell_at r "datetime") <$> rows (analysed sample_wb "Library" 700).1
          = (λ x, Stamp (Some x)) <$> ts
          ∧ Sorted Z.le ts.
Proof.
  assert (load_data parse_stamps sample_wb
          = Ok ((loaded sample_wb).1, (loaded sample_wb).2)) as H1
    by (vm_compute; reflexivity).
  assert (merge_and_analyze (loaded sample_wb).1 (loaded sample_wb).2 "Library" 700
          = Ok ((analysed sample_wb "Library" 700).1,
                (analysed sample_wb "Library" 700).2)) as H2
    by (vm_compute; reflexivity).
  split; [exact H1|]. split; [exact H2|].
  destruct (joined_in_time_order parse_stamps sample_wb _ _ _ _ _ _ H1 H2)
    as (ts & sts & Hts & Hsorted & _).
  exists ts. split; [exact Hts|exact Hsorted].
Defined.

(** X7: when no timestamp is repeated within either frame, none is
    repeated in the joined frame nor among the simultaneous hours, and
    the joined frame has one row for each CHW row whose timestamp is in
    the MTHW frame. *)
Theorem joined_hours_distinct chw_df mthw_df b t df simul_df :
  NoDup ((λ r, cell_at r "datetime") <$> rows chw_df) →
  NoDup ((λ r, cell_at r "datetime") <$> rows mthw_df) →
  merge_and_analyze chw_df mthw_df b t = Ok (df, simul_df) →
  NoDup ((λ r, cell_at r "datetime") <$> rows df)
  ∧ NoDup ((λ r, cell_at r "datetime") <$> rows simul_df)
  ∧ length (rows df)
    = length (filter (λ l, cell_at l "datetime"
                           ∈ (λ r, cell_at r "datetime") <$> rows mthw_df)
                (rows chw_df)).
Proof.
  intros Hchw Hmthw Hrun.
  assert (∀ l, l ∈ rows chw_df →
               length (filter (same_key "datetime" l) (rows mthw_df)) ≤ 1) as Hone.
  { intros l _. by apply length_filter_same_key. }
  assert (NoDup ((λ r, cell_at r "datetime") <$> rows df)) as Hdf.
  { rewrite (joined_datetime _ _ _ _ _ _ Hrun).
    assert ((λ p, cell_at p.1 "datetime")
            <$> matching (same_key "datetime") (rows chw_df) (rows mthw_df)
            = (λ l, cell_at l "datetime")
              <$> (matching (same_key "datetime") (rows chw_df) (rows mthw_df)).*1) as ->
      by by rewrite <-list_fmap_compose.
    eapply sublist_NoDup; [exact Hchw|]. apply fmap_sublist.
    apply (matching_fst_sublist (same_key "datetime") _ _ Hone). }
  split; [done|]. split.
  - eapply sublist_NoDup; [exact Hdf|]. apply fmap_sublist.
    by eapply simul_sublist.
  - apply merge_and_analyze_Ok in Hrun as (_ & _ & _ & -> & _). cbn [rows].
    rewrite length_fmap, length_matching_filter by done. f_equal.
    apply list_filter_iff. intros l.
    rewrite Exists_exists, list_elem_of_fmap. unfold same_key.
    split; intros (r & ? & ?); by exists r.
Qed.

(** An instance: the Library of the sample workbook. *)
Lemma joined_hours_distinct_witness :
  NoDup ((λ r, cell_at r "datetime") <$> rows (loaded sample_wb).1)
  ∧ NoDup ((λ r, cell_at r "datetime") <$> rows (loaded sample_wb).2)
  ∧ merge_and_analyze (loaded sample_wb).1 (loaded sample_wb).2 "Library" 700
    = Ok ((analysed sample_wb "Library" 700).1, (analysed sample_wb "Library" 700).2)
  ∧ NoDup ((λ r, cell_at r "datetime") <$> rows (analysed sample_wb "Library" 700).1).
Proof.
  assert (NoDup ((λ r, cell_at r "datetime") <$> rows (loaded sample_wb).1)) as H1.
  { assert ((λ r, cell_at r "datetime") <$> rows (loaded sample_wb).1
            = [hour 3600; hour 7200; hour 10800]) as -> by (vm_compute; reflexivity).
    apply (bool_decide_unpack _). vm_compute. exact I. }
  assert (NoDup ((λ r, cell_at r "datetime") <$> rows (loaded sample_wb).2)) as H2.
  { assert ((λ r, cell_at r "datetime") <$> rows (loaded sample_wb).2
            = [hour 3600; hour 7200; hour 10800; hour 14400]) as ->
      by (vm_compute; reflexivity).
    apply (bool_decide_unpack _). vm_compute. exact I. }
  assert (merge_and_analyze (loaded sample_wb).1 (loaded sample_wb).2 "Library" 700
          = Ok ((analysed sample_wb "Library" 700).1,
                (analysed sample_wb "Library" 700).2)) as H3
    by (vm_compute; reflexivity).
  split; [exact H1|]. split; [exact H2|]. split; [exact H3|].
  apply (joined_hours_distinct _ _ _ _ _ _ H1 H2 H3).
Defined.

(** ** Where the analysis raises *)

Lemma traverse_Raise {A B} (f : A → result B) l e :
  traverse f l = Raise e → ∃ x, x ∈ l ∧ f x = Raise e.
Proof.
  induction l as [|x l IH]; simpl; [done|].
  destruct (f x) as [y|e'] eqn:E; simpl.
  - destruct (traverse f l) as [ys|e'']; simpl; [done|].
    intros [= <-]. destruct IH as (x' & ? & ?); [done|].
    exists x'. split; [by right|done].
  - intros [= <-]. exists x. split; [by left|done].
Qed.

Lemma cell_gt_comparable c t : comparable c = true ↔ ∃ b, cell_gt c t = Ok b.
Proof. destruct c; simpl; split; first [done|by eauto|by intros [? ?]]. Qed.

Lemma cell_gt_Raise c t e : cell_gt c t = Raise e → ∃ msg, e = TypeError msg.
Proof. destruct c; simpl; intros [= <-]; eauto. Qed.

Lemma series_gt_Raise s t e : series_gt s t = Raise e → ∃ msg, e = TypeError msg.
Proof.
  intros (c & _ & Hc)%traverse_Raise.
  destruct (cell_gt c t) as [|e'] eqn:E; [done|]. injection Hc as <-.
  by eapply cell_gt_Raise.
Qed.

(** With its two columns there, the analysis returns or raises a
    TypeError, from one of the two comparisons. *)
Lemma analyze_cases df t :
  "CHW" ∈ columns df → "MTHW" ∈ columns df →
  (∃ frames, analyze df t = Ok frames) ∨ (∃ msg, analyze df t = Raise (TypeError msg)).
Proof.
  intros Hc Hm.
  destruct (series_gt ((λ r, cell_at r "CHW") <$> rows df) t) as [chw_on|e] eqn:E1.
  2:{ right. destruct (series_gt_Raise _ _ _ E1) as [msg ->]. exists msg.
      unfold analyze. by rewrite getitem_elem, bind_Ok_l, E1 by done. }
  destruct (series_gt ((λ r, cell_at r "MTHW") <$> rows df) t) as [mthw_on|e] eqn:E2.
  - left. eexists. apply analyze_eval; [done..|].
    apply series_gt_Ok in E1 as [H1 _]. apply series_gt_Ok in E2 as [H2 _].
    rewrite Forall_fmap in H1, H2. rewrite Forall_forall in H1, H2.
    apply Forall_forall. intros r Hr. split; [by apply H1|by apply H2].
  - right. destruct (series_gt_Raise _ _ _ E2) as [msg ->]. exists msg.
    unfold analyze. rewrite getitem_elem, bind_Ok_l, E1, bind_Ok_l by done.
    apply series_gt_Ok in E1 as [_ ->].
    rewrite getitem_elem, bind_Ok_l by by apply elem_of_with_label.
    rewrite setitem_column.
    assert ((λ r, cell_at r "MTHW")
            <$> ((λ r, <["CHW_on" := Bool (gt_flag (cell_at r "CHW") t)]> r) <$> rows df)
            = (λ r, cell_at r "MTHW") <$> rows df) as ->.
    { rewrite <-list_fmap_compose. apply list_fmap_ext.
      intros _ r _. simpl. by rewrite cell_at_insert_ne. }
    by rewrite E2.
Qed.

Lemma merge_and_analyze_cases chw_df mthw_df b t df0 :
  merge_sheets chw_df mthw_df b = Ok df0 →
  (∃ frames, merge_and_analyze chw_df mthw_df b t = Ok frames)
  ∨ (∃ msg, merge_and_analyze chw_df mthw_df b t = Raise (TypeError msg)).
Proof.
  intros Hmerge. unfold merge_and_analyze. rewrite Hmerge, bind_Ok_l.
  apply merge_sheets_Ok in Hmerge as (_ & _ & ->).
  apply analyze_cases; cbn [columns]; in_list.
Qed.

(** The rows of the simultaneous subset have both loads above the
    threshold. *)
Lemma simul_rows_on chw_df mthw_df b t df simul_df r :
  merge_and_analyze chw_df mthw_df b t = Ok (df, simul_df) →
  r ∈ rows simul_df →
  cell_gt (cell_at r "CHW") t = Ok true ∧ cell_gt (cell_at r "MTHW") t = Ok true.
Proof.
  intros Hrun Hr.
  pose proof Hrun as (_ & _ & _ & _ & Hsimul)%merge_and_analyze_Ok.
  rewrite Hsimul in Hr. cbn [rows] in Hr.
  apply list_elem_of_filter in Hr as [Hon Hr].
  apply (joined_rows_elem _ _ _ _ _ _ _ Hrun) in Hr
    as (l & r' & _ & _ & _ & -> & [a Ha] & [c Hc]).
  destruct (flagged_lookup t (joined_row b l r')) as (_ & _ & Hac & _).
  unfold cell_at in Hon at 1. rewrite Hac in Hon.
  rewrite (cell_gt_flag _ _ _ Ha), (cell_gt_flag _ _ _ Hc) in Hon.
  injection Hon as [-> ->]%andb_true_iff.
  by rewrite !cell_at_flagged by not_in_list.
Qed.

(** A loaded row has the cells of a row of its sheet, "datetime" apart. *)
Lemma fix_timestamp_cells parse sheet out r :
  fix_timestamp parse sheet = Ok out → r ∈ rows out →
  ∃ r0, r0 ∈ rows sheet ∧ ∀ col, col ≠ "datetime" → cell_at r col = cell_at r0 col.
Proof.
  intros Hrows%fix_timestamp_rows. rewrite Hrows.
  intros (r0 & -> & [_ Hr0]%list_elem_of_filter)%list_elem_of_fmap.
  exists r0. split; [done|]. intros col Hcol. by rewrite cell_at_insert_ne.
Qed.

Lemma fix_timestamp_datetime parse sheet out :
  fix_timestamp parse sheet = Ok out → "datetime" ∈ columns out.
Proof.
  intros ->%fix_timestamp_columns. unfold with_label.
  case_decide; [done|]. apply elem_of_app. right. by left.
Qed.

(** Selecting "datetime" and a label that the frame lacks. *)
Lemma select_missing df col :
  "datetime" ∈ columns df → col ∉ columns df →
  select df ["datetime"; col] = Raise (KeyError col).
Proof.
  intros Hd Hcol. unfold select.
  rewrite filter_cons, decide_False by (intros Hn; by apply Hn).
  by rewrite filter_cons, decide_True.
Qed.

(** ** Runs of the page *)

Section runs.
Context (parse : list cell → cell → option Z).

(** A run that ends where the analysis raises. *)
Lemma app_analysis_Raise wb s chw_df mthw_df b e :
  load_data parse wb = Ok (chw_df, mthw_df) →
  chosen (common_buildings (columns chw_df) (columns mthw_df)) s = Some b →
  merge_and_analyze chw_df mthw_df b (clamp 0 5000 (entered s)) = Raise e →
  app parse wb s []
  = ([StTitle "Simultaneous Heating + Cooling Analyzer";
      StSubheader "Select Building";
      StSelectbox "Choose a building:"
        (common_buildings (columns chw_df) (columns mthw_df));
      StSuccess ("Selected Building: **" +:+ b +:+ "**");
      StSubheader "Threshold Adjustment";
      StNumberInput "Enter the kBTU/h threshold for determining system 'on' status:"
        0 5000 700 50;
      StInfo ("Using threshold: **" +:+ str (clamp 0 5000 (entered s))
            +:+ " kBTU/h**")],
     Uncaught e).
Proof.
  intros Hload Hb Hrun.
  assert (b ≠ "") as Hne
    by (eapply common_buildings_nonempty, chosen_elem, Hb).
  destruct b as [|a b]; [done|]. clear Hne.
  unfold app. rewrite run_show, Hload, run_lift_Ok.
  rewrite run_show, run_selectbox, Hb. cbv beta iota.
  by rewrite !run_show, run_number_input, run_show, Hrun, run_lift_Raise.
Qed.

(** The page of a run that gets through, element by element. *)
Lemma app_complete wb s chw_df mthw_df b df simul_df :
  load_data parse wb = Ok (chw_df, mthw_df) →
  chosen (common_buildings (columns chw_df) (columns mthw_df)) s = Some b →
  merge_and_analyze chw_df mthw_df b (clamp 0 5000 (entered s)) = Ok (df, simul_df) →
  let t := clamp 0 5000 (entered s) in
  let col := λ (df : DataFrame) c, (λ r, cell_at r c) <$> rows df in
  app parse wb s []
  = ([StTitle "Simultaneous Heating + Cooling Analyzer";
      StSubheader "Select Building";
      StSelectbox "Choose a building:"
        (common_buildings (columns chw_df) (columns mthw_df));
      StSuccess ("Selected Building: **" +:+ b +:+ "**");
      StSubheader "Threshold Adjustment";
      StNumberInput "Enter the kBTU/h threshold for determining system 'on' status:"
        0 5000 700 50;
      StInfo ("Using threshold: **" +:+ str t +:+ " kBTU/h**");
      StSubheader "Simultaneous Heating + Cooling Summary";
      StWrite ("**Total hours detected:** "
             +:+ str (Z.of_nat (length (rows simul_df))));
      StDataframe
        {| columns := ["datetime"; "CHW"; "MTHW"];
           rows := (λ r, filter (λ kv, kv.1 ∈ ["datetime"; "CHW"; "MTHW"]) r)
                   <$> rows simul_df |};
      StPyplot {| artists := [Line (col df "datetime") (col df "CHW") "CHW Load";
                            HLine t "Threshold"];
                fig_title := b +:+ " — CHW Load";
                fig_xlabel := "Date"; fig_ylabel := "kbtuh" |};
      StPyplot {| artists := [Line (col df "datetime") (col df "MTHW") "MTHW Load";
                            HLine t "Threshold"];
                fig_title := b +:+ " — MTHW Load";
                fig_xlabel := "Date"; fig_ylabel := "kbtuh" |};
      StPyplot {| artists := [Line (col df "datetime") (col df "CHW") "CHW";
                            Line (col df "datetime") (col df "MTHW") "MTHW";
                            HLine t "Threshold";
                            Scatter (col simul_df "datetime") (col simul_df "CHW")
                                    "Simultaneous H+C"];
                fig_title := b +:+ " — Simultaneous Heating + Cooling";
                fig_xlabel := "Date"; fig_ylabel := "kbtuh" |};
      StSuccess ("Saved output file: **" +:+ out_file b +:+ "**");
      StDownloadButton "Download CSV" (to_csv simul_df) (out_file b)],
     Done tt).
Proof.
  intros Hload Hb Hrun t col.
  assert (b ≠ "") as Hne
    by (eapply common_buildings_nonempty, chosen_elem, Hb).
  destruct b as [|a b]; [done|]. clear Hne.
  unfold app. rewrite run_show, Hload, run_lift_Ok.
  rewrite run_show, run_selectbox, Hb. cbv beta iota.
  rewrite !run_show, run_number_input, run_show, Hrun, run_lift_Ok. cbv beta iota.
  apply merge_and_analyze_Ok in Hrun as (_ & _ & _ & Hdf & Hsimul).
  assert (columns df = ["datetime"; "CHW"; "MTHW"; "CHW_on"; "MTHW_on"; "simul"])
    as Hcols by by rewrite Hdf.
  assert (columns simul_df = ["datetime"; "CHW"; "MTHW"; "CHW_on"; "MTHW_on"; "simul"])
    as Hscols by by rewrite Hsimul.
  assert (∀ c, c ∈ ["datetime"; "CHW"; "MTHW"] → c ∈ columns df ∧ c ∈ columns simul_df)
    as Hin.
  { intros c Hc. rewrite Hcols, Hscols.
    split; change (c ∈ ["datetime"; "CHW"; "MTHW"] ++ ["CHW_on"; "MTHW_on"; "simul"]);
      apply elem_of_app; by left. }
  assert (select simul_df ["datetime"; "CHW"; "MTHW"]
          = Ok {| columns := ["datetime"; "CHW"; "MTHW"];
                  rows := (λ r, filter (λ kv, kv.1 ∈ ["datetime"; "CHW"; "MTHW"]) r)
                          <$> rows simul_df |}) as Hshown.
  { apply select_Ok. split; [|done]. apply Forall_forall. intros c Hc. by apply Hin. }
  rewrite !run_show, Hshown, run_lift_Ok, run_show.
  unfold mbind at 1, script_bind at 1.
  rewrite plotting_run; [|apply Hin; in_list..].
  rewrite run_show. unfold show. by rewrite <-!app_assoc.
Qed.


Lemma exact_labels_elem suffix cols col g :
  exact_labels suffix cols = true → col ∈ cols → re_match suffix col = Some g →
  col = g +:+ " " +:+ suffix +:+ " (kbtuh)".
Proof.
  unfold exact_labels. rewrite forallb_forall. intros Hall Hcol%list_elem_of_In Hg.
  specialize (Hall col Hcol). rewrite Hg in Hall. by apply bool_decide_eq_true in Hall.
Qed.

(** X8: the run stops at [st.stop()] exactly when the sheets load and no
    building is in both of them; a name read from a label is never
    empty, so the test of the selection does not stop a run for any
    other reason. *)
Theorem stops_only_without_buildings wb s :
  (app parse wb s []).2 = Stopped
  ↔ ∃ chw_df mthw_df,
      load_data parse wb = Ok (chw_df, mthw_df)
      ∧ common_buildings (columns chw_df) (columns mthw_df) = [].
Proof.
  destruct (load_data parse wb) as [[chw_df mthw_df]|e] eqn:Hload.
  2:{ rewrite (app_load_Raise parse wb s e Hload). simpl.
      split; [done|]. by intros (? & ? & ? & _). }
  destruct (chosen (common_buildings (columns chw_df) (columns mthw_df)) s)
    as [b|] eqn:Hb.
  - assert (common_buildings (columns chw_df) (columns mthw_df) ≠ []) as Hne.
    { intros Hnil%(chosen_None _ s). by rewrite Hnil in Hb. }
    assert ((app parse wb s []).2 ≠ Stopped) as Hgo.
    { destruct (merge_and_analyze chw_df mthw_df b (clamp 0 5000 (entered s)))
        as [[df simul_df]|e] eqn:Hrun.
      - by rewrite (app_complete wb s _ _ _ _ _ Hload Hb Hrun).
      - by rewrite (app_analysis_Raise wb s _ _ _ _ Hload Hb Hrun). }
    split; [done|]. by intros (? & ? & [= <- <-] & ?).
  - rewrite (app_stop parse wb s _ _ Hload Hb). simpl. split; [|done].
    intros _. exists chw_df, mthw_df. split; [done|]. by apply chosen_None in Hb.
Qed.

(** X9: every page starts with the title, and the table, the charts and
    the download button are on it exactly when the run gets to its last
    line. A run that completes leaves fifteen elements, the download
    button last; one that stops leaves three; one that ends with an
    exception leaves one element or seven, and seven only when loading
    returned. *)
Theorem results_only_when_complete wb s :
  head (app parse wb s []).1 = Some (StTitle "Simultaneous Heating + Cooling Analyzer")
  ∧ (existsb is_result (app parse wb s []).1 = true ↔ (app parse wb s []).2 = Done tt)
  ∧ match (app parse wb s []).2 with
    | Done _ =>
        length (app parse wb s []).1 = 15
        ∧ ∃ data file_name,
            last (app parse wb s []).1
            = Some (StDownloadButton "Download CSV" data file_name)
    | Stopped => length (app parse wb s []).1 = 3
    | Uncaught e =>
        length (app parse wb s []).1 = 1
        ∨ (length (app parse wb s []).1 = 7
           ∧ ∃ frames, load_data parse wb = Ok frames)
    end.
Proof.
  destruct (load_data parse wb) as [[chw_df mthw_df]|e] eqn:Hload.
  2:{ rewrite (app_load_Raise parse wb s e Hload). simpl.
      split; [done|]. split; [done|]. by left. }
  destruct (chosen (common_buildings (columns chw_df) (columns mthw_df)) s)
    as [b|] eqn:Hb.
  - destruct (merge_and_analyze chw_df mthw_df b (clamp 0 5000 (entered s)))
      as [[df simul_df]|e] eqn:Hrun.
    + rewrite (app_complete wb s _ _ _ _ _ Hload Hb Hrun).
      cbn [fst snd head length existsb is_result orb last].
      split; [done|]. split; [done|]. split; [done|]. by eexists _, _.
    + rewrite (app_analysis_Raise wb s _ _ _ _ Hload Hb Hrun).
      cbn [fst snd head length existsb is_result orb].
      split; [done|]. split; [done|]. right. split; [done|by eexists].
  - rewrite (app_stop parse wb s _ _ Hload Hb).
    cbn [fst snd head length existsb is_result orb]. done.
Qed.

(** X10: in a run that completes, the number of hours written on the page
    is the number of rows of the table below it and of records of the
    download; the table has the columns "datetime", "CHW" and "MTHW" and
    nothing else, and holds, row by row, the first three fields of the
    records of the download. *)
Theorem table_and_download_agree wb s chw_df mthw_df b df simul_df :
  load_data parse wb = Ok (chw_df, mthw_df) →
  chosen (common_buildings (columns chw_df) (columns mthw_df)) s = Some b →
  merge_and_analyze chw_df mthw_df b (clamp 0 5000 (entered s)) = Ok (df, simul_df) →
  ∃ page shown,
    app parse wb s [] = (page, Done tt)
    ∧ page !! 8 = Some (StWrite ("**Total hours detected:** "
                               +:+ str (Z.of_nat (length (rows shown)))))
    ∧ page !! 9 = Some (StDataframe shown)
    ∧ last page = Some (StDownloadButton "Download CSV" (to_csv simul_df) (out_file b))
    ∧ columns shown = ["datetime"; "CHW"; "MTHW"]
    ∧ (∀ r c, r ∈ rows shown → c ∉ ["datetime"; "CHW"; "MTHW"] → r !! c = None)
    ∧ length (rows shown) = length (records (to_csv simul_df))
    ∧ records (to_csv shown) = take 3 <$> records (to_csv simul_df).
Proof.
  intros Hload Hb Hrun.
  eexists _, {| columns := ["datetime"; "CHW"; "MTHW"];
                rows := (λ r, filter (λ kv, kv.1 ∈ ["datetime"; "CHW"; "MTHW"]) r)
                        <$> rows simul_df |}.
  split; [by apply app_complete|].
  cbn [lookup list_lookup last columns rows]. rewrite length_fmap.
  split; [done|]. split; [done|]. split; [done|]. split; [done|]. split; [|split].
  - intros r c (r0 & -> & _)%list_elem_of_fmap Hc. by apply lookup_select_None.
  - unfold to_csv. cbn [records]. by rewrite length_fmap.
  - destruct (to_csv_simul _ _ _ _ _ _ Hrun) as [_ ->].
    unfold to_csv. cbn [records columns rows].
    rewrite <-!list_fmap_compose. apply list_fmap_ext. intros _ r _. simpl.
    by rewrite !cell_at_select by in_list.
Qed.

(** X11: in a run that completes there are three charts. Each has the
    threshold line at the threshold in use, which is within the bounds of
    the number input; the lines are drawn over all the joined rows, and
    the simultaneous points of the third chart are points of its CHW
    line, in the same order, each above the threshold line. *)
Theorem charts_of_a_run wb s chw_df mthw_df b df simul_df :
  load_data parse wb = Ok (chw_df, mthw_df) →
  chosen (common_buildings (columns chw_df) (columns mthw_df)) s = Some b →
  merge_and_analyze chw_df mthw_df b (clamp 0 5000 (entered s)) = Ok (df, simul_df) →
  ∃ t x chw mthw sx sy,
    figures_of (app parse wb s []).1
    = [ {| artists := [Line x chw "CHW Load"; HLine t "Threshold"];
           fig_title := b +:+ " — CHW Load";
           fig_xlabel := "Date"; fig_ylabel := "kbtuh" |};
        {| artists := [Line x mthw "MTHW Load"; HLine t "Threshold"];
           fig_title := b +:+ " — MTHW Load";
           fig_xlabel := "Date"; fig_ylabel := "kbtuh" |};
        {| artists := [Line x chw "CHW"; Line x mthw "MTHW"; HLine t "Threshold";
                       Scatter sx sy "Simultaneous H+C"];
           fig_title := b +:+ " — Simultaneous Heating + Cooling";
           fig_xlabel := "Date"; fig_ylabel := "kbtuh" |} ]
    ∧ t = clamp 0 5000 (entered s)
    ∧ (0 ≤ t ≤ 5000)%Z
    ∧ ((0 ≤ entered s ≤ 5000)%Z → t = entered s)
    ∧ length x = length (rows df) ∧ length chw = length x ∧ length mthw = length x
    ∧ length sx = length (rows simul_df) ∧ length sy = length sx
    ∧ zip sx sy `sublist_of` zip x chw
    ∧ Forall (λ c, cell_gt c t = Ok true) sy.
Proof.
  intros Hload Hb Hrun.
  exists (clamp 0 5000 (entered s)),
    ((λ r, cell_at r "datetime") <$> rows df), ((λ r, cell_at r "CHW") <$> rows df),
    ((λ r, cell_at r "MTHW") <$> rows df),
    ((λ r, cell_at r "datetime") <$> rows simul_df),
    ((λ r, cell_at r "CHW") <$> rows simul_df).
  rewrite (app_complete wb s _ _ _ _ _ Hload Hb Hrun). rewrite !length_fmap.
  split; [done|]. split; [done|]. split; [unfold clamp; lia|].
  split; [unfold clamp; lia|]. do 5 (split; [done|]). split.
  - rewrite !zip_with_fmap_l, !zip_with_fmap_r, !zip_with_diag.
    apply fmap_sublist. by eapply simul_sublist.
  - apply Forall_fmap, Forall_forall. intros r Hr. simpl.
    by destruct (simul_rows_on _ _ _ _ _ _ _ Hrun Hr).
Qed.

(** X12: when an hour that both frames have holds something that is not
    a number under the building's CHW or MTHW label, the comparison with
    the threshold raises a TypeError; the run ends with it after the
    threshold is shown, without table, chart or download. *)
Theorem text_load_ends_run wb s chw_df mthw_df b l r :
  load_data parse wb = Ok (chw_df, mthw_df) →
  chosen (common_buildings (columns chw_df) (columns mthw_df)) s = Some b →
  b +:+ " CHW (kbtuh)" ∈ columns chw_df →
  b +:+ " MTHW (kbtuh)" ∈ columns mthw_df →
  l ∈ rows chw_df → r ∈ rows mthw_df →
  cell_at l "datetime" = cell_at r "datetime" →
  comparable (cell_at l (b +:+ " CHW (kbtuh)")) = false
  ∨ comparable (cell_at r (b +:+ " MTHW (kbtuh)")) = false →
  ∃ msg,
    merge_and_analyze chw_df mthw_df b (clamp 0 5000 (entered s))
    = Raise (TypeError msg)
    ∧ app parse wb s []
      = ([StTitle "Simultaneous Heating + Cooling Analyzer";
          StSubheader "Select Building";
          StSelectbox "Choose a building:"
            (common_buildings (columns chw_df) (columns mthw_df));
          StSuccess ("Selected Building: **" +:+ b +:+ "**");
          StSubheader "Threshold Adjustment";
          StNumberInput
            "Enter the kBTU/h threshold for determining system 'on' status:"
            0 5000 700 50;
          StInfo ("Using threshold: **" +:+ str (clamp 0 5000 (entered s))
                +:+ " kBTU/h**")],
         Uncaught (TypeError msg)).
Proof.
  intros Hload Hb Hc Hm Hl Hr Hk Hbad.
  pose proof Hload as (chw_sheet & mthw_sheet & _ & _ & Hfc & Hfm)%load_data_Ok.
  destruct (merge_sheets_total chw_df mthw_df b) as [df0 Hmerge];
    [by eapply fix_timestamp_datetime|done|by eapply fix_timestamp_datetime|done|].
  destruct (merge_and_analyze_cases _ _ _ (clamp 0 5000 (entered s)) _ Hmerge)
    as [[[df simul_df] Hrun]|[msg Hrun]].
  - apply merge_and_analyze_Ok in Hrun as (_ & _ & Hall & _).
    rewrite Forall_forall in Hall.
    destruct (Hall (l, r)) as [H1%cell_gt_comparable H2%cell_gt_comparable].
    { by apply elem_of_matching. }
    simpl in H1, H2. destruct Hbad; congruence.
  - exists msg. split; [done|]. by apply app_analysis_Raise.
Qed.

(** X13: when every label from which a name is read has the exact form,
    the building that is selected has its column in each frame, and the
    selection of "datetime" and that column returns for both frames. *)
Theorem exact_labels_have_columns wb s chw_df mthw_df b :
  load_data parse wb = Ok (chw_df, mthw_df) →
  exact_labels "CHW" (columns chw_df) = true →
  exact_labels "MTHW" (columns mthw_df) = true →
  chosen (common_buildings (columns chw_df) (columns mthw_df)) s = Some b →
  b +:+ " CHW (kbtuh)" ∈ columns chw_df
  ∧ b +:+ " MTHW (kbtuh)" ∈ columns mthw_df
  ∧ ∃ left right,
      select chw_df ["datetime"; b +:+ " CHW (kbtuh)"] = Ok left
      ∧ select mthw_df ["datetime"; b +:+ " MTHW (kbtuh)"] = Ok right
      ∧ columns left = ["datetime"; b +:+ " CHW (kbtuh)"]
      ∧ columns right = ["datetime"; b +:+ " MTHW (kbtuh)"]
      ∧ length (rows left) = length (rows chw_df)
      ∧ length (rows right) = length (rows mthw_df).
Proof.
  intros (chw_sheet & mthw_sheet & _ & _ & Hfc & Hfm)%load_data_Ok Hec Hem
    [(c1 & Hc1 & Hg1)%extract_building_names_elem
     (c2 & Hc2 & Hg2)%extract_building_names_elem]%chosen_elem%common_buildings_elem.
  pose proof (exact_labels_elem _ _ _ _ Hec Hc1 Hg1) as E1.
  pose proof (exact_labels_elem _ _ _ _ Hem Hc2 Hg2) as E2.
  change (b +:+ " " +:+ "CHW" +:+ " (kbtuh)") with (b +:+ " CHW (kbtuh)") in E1.
  change (b +:+ " " +:+ "MTHW" +:+ " (kbtuh)") with (b +:+ " MTHW (kbtuh)") in E2.
  subst c1 c2. split; [done|]. split; [done|].
  apply fix_timestamp_datetime in Hfc, Hfm.
  eexists _, _. split; [|split].
  - apply select_Ok. split; [|done]. by repeat constructor.
  - apply select_Ok. split; [|done]. by repeat constructor.
  - cbn [columns rows]. by rewrite !length_fmap.
Qed.

(** X14: when the building that is selected does not have its column
    under the exact label in one of the frames, the selection of the
    columns raises a KeyError that names the label, the CHW label when
    both are missing; the run ends with it after the threshold is
    shown. *)
Theorem missing_column_ends_run wb s chw_df mthw_df b :
  load_data parse wb = Ok (chw_df, mthw_df) →
  chosen (common_buildings (columns chw_df) (columns mthw_df)) s = Some b →
  (b +:+ " CHW (kbtuh)" ∉ columns chw_df) ∨ (b +:+ " MTHW (kbtuh)" ∉ columns mthw_df) →
  ∃ label,
    label = (if decide (b +:+ " CHW (kbtuh)" ∈ columns chw_df)
             then b +:+ " MTHW (kbtuh)" else b +:+ " CHW (kbtuh)")
    ∧ merge_and_analyze chw_df mthw_df b (clamp 0 5000 (entered s))
      = Raise (KeyError label)
    ∧ app parse wb s []
      = ([StTitle "Simultaneous Heating + Cooling Analyzer";
          StSubheader "Select Building";
          StSelectbox "Choose a building:"
            (common_buildings (columns chw_df) (columns mthw_df));
          StSuccess ("Selected Building: **" +:+ b +:+ "**");
          StSubheader "Threshold Adjustment";
          StNumberInput
            "Enter the kBTU/h threshold for determining system 'on' status:"
            0 5000 700 50;
          StInfo ("Using threshold: **" +:+ str (clamp 0 5000 (entered s))
                +:+ " kBTU/h**")],
         Uncaught (KeyError label)).
Proof.
  intros Hload Hb Hmissing.
  pose proof Hload as (chw_sheet & mthw_sheet & _ & _ & Hfc & Hfm)%load_data_Ok.
  apply fix_timestamp_datetime in Hfc, Hfm.
  eexists. split; [reflexivity|].
  assert (merge_and_analyze chw_df mthw_df b (clamp 0 5000 (entered s))
          = Raise (KeyError (if decide (b +:+ " CHW (kbtuh)" ∈ columns chw_df)
                             then b +:+ " MTHW (kbtuh)" else b +:+ " CHW (kbtuh)")))
    as Hrun.
  { unfold merge_and_analyze, merge_sheets.
    destruct (decide (b +:+ " CHW (kbtuh)" ∈ columns chw_df)) as [Hc|Hc].
    - destruct Hmissing as [Hn|Hn]; [done|].
      assert (Forall (λ c, c ∈ columns chw_df) ["datetime"; b +:+ " CHW (kbtuh)"])
        as Hall by by repeat constructor.
      rewrite (proj2 (select_Ok chw_df _ _) (conj Hall eq_refl)), bind_Ok_l.
      by rewrite (select_missing mthw_df _ Hfm Hn).
    - by rewrite (select_missing chw_df _ Hfc Hc). }
  split; [done|]. by apply app_analysis_Raise.
Qed.


End runs.

(** An instance: a visit of the sample workbook. *)
Lemma table_and_download_agree_witness :
  load_data parse_stamps sample_wb = Ok ((loaded sample_wb).1, (loaded sample_wb).2)
  ∧ chosen (common_buildings (columns (loaded sample_wb).1) (columns (loaded sample_wb).2))
      visit = Some "Library"
  ∧ merge_and_analyze (loaded sample_wb).1 (loaded sample_wb).2 "Library"
      (clamp 0 5000 (entered visit))
    = Ok ((analysed sample_wb "Library" 700).1, (analysed sample_wb "Library" 700).2)
  ∧ ∃ page shown,
      app parse_stamps sample_wb visit [] = (page, Done tt)
      ∧ page !! 9 = Some (StDataframe shown)
      ∧ records (to_csv shown)
        = take 3 <$> records (to_csv (analysed sample_wb "Library" 700).2).
Proof.
  assert (load_data parse_stamps sample_wb
          = Ok ((loaded sample_wb).1, (loaded sample_wb).2)) as H1
    by (vm_compute; reflexivity).
  assert (chosen (common_buildings (columns (loaded sample_wb).1)
                    (columns (loaded sample_wb).2)) visit = Some "Library") as H2
    by (vm_compute; reflexivity).
  assert (merge_and_analyze (loaded sample_wb).1 (loaded sample_wb).2 "Library"
            (clamp 0 5000 (entered visit))
          = Ok ((analysed sample_wb "Library" 700).1,
                (analysed sample_wb "Library" 700).2)) as H3
    by (vm_compute; reflexivity).
  split; [exact H1|]. split; [exact H2|]. split; [exact H3|].
  destruct (table_and_download_agree parse_stamps sample_wb visit _ _ _ _ _ H1 H2 H3)
    as (page & shown & Hpage & _ & Hshown & _ & _ & _ & _ & Hrecords).
  exists page, shown. split; [exact Hpage|]. split; [exact Hshown|exact Hrecords].
Defined.

(** An instance: a visit of the sample workbook. *)
Lemma charts_of_a_run_witness :
  load_data parse_stamps sample_wb = Ok ((loaded sample_wb).1, (loaded sample_wb).2)
  ∧ chosen (common_buildings (columns (loaded sample_wb).1) (columns (loaded sample_wb).2))
      visit = Some "Library"
  ∧ merge_and_analyze (loaded sample_wb).1 (loaded sample_wb).2 "Library"
      (clamp 0 5000 (entered visit))
    = Ok ((analysed sample_wb "Library" 700).1, (analysed sample_wb "Library" 700).2)
  ∧ ∃ t sy,
      t = clamp 0 5000 (entered visit)
      ∧ length sy = length (rows (analysed sample_wb "Library" 700).2)
      ∧ Forall (λ c, cell_gt c t = Ok true) sy.
Proof.
  assert (load_data parse_stamps sample_wb
          = Ok ((loaded sample_wb).1, (loaded sample_wb).2)) as H1
    by (vm_compute; reflexivity).
  assert (chosen (common_buildings (columns (loaded sample_wb).1)
                    (columns (loaded sample_wb).2)) visit = Some "Library") as H2
    by (vm_compute; reflexivity).
  assert (merge_and_analyze (loaded sample_wb).1 (loaded sample_wb).2 "Library"
            (clamp 0 5000 (entered visit))
          = Ok ((analysed sample_wb "Library" 700).1,
                (analysed sample_wb "Library" 700).2)) as H3
    by (vm_compute; reflexivity).
  split; [exact H1|]. split; [exact H2|]. split; [exact H3|].
  destruct (charts_of_a_run parse_stamps sample_wb visit _ _ _ _ _ H1 H2 H3)
    as (t & x & chw & mthw & sx & sy & _ & Ht & _ & _ & _ & _ & _ & Hsx & Hsy & _ & Hon).
  exists t, sy. split; [exact Ht|]. split; [|exact Hon].
  exact (eq_trans Hsy Hsx).
Defined.

(** An instance: the workbook with a note under the Library's CHW label,
    at an hour that the MTHW sheet has too. *)
Lemma text_load_ends_run_witness :
  load_data parse_stamps noted_wb = Ok ((loaded noted_wb).1, (loaded noted_wb).2)
  ∧ chosen (common_buildings (columns (loaded noted_wb).1) (columns (loaded noted_wb).2))
      visit = Some "Library"
  ∧ "Library" +:+ " CHW (kbtuh)" ∈ columns (loaded noted_wb).1
  ∧ "Library" +:+ " MTHW (kbtuh)" ∈ columns (loaded noted_wb).2
  ∧ <["datetime" := hour 3600]>
      {[ "Timestamp" := hour 3600; "Library CHW (kbtuh)" := Text "offline" ]}
    ∈ rows (loaded noted_wb).1
  ∧ <["datetime" := hour 3600]>
      {[ "Timestamp" := hour 3600; "Library MTHW (kbtuh)" := num 800 ]}
    ∈ rows (loaded noted_wb).2
  ∧ ∃ msg, (app parse_stamps noted_wb visit []).2 = Uncaught (TypeError msg).
Proof.
  pose (l := <["datetime" := hour 3600]>
               ({[ "Timestamp" := hour 3600; "Library CHW (kbtuh)" := Text "offline" ]}
                : gmap string cell)).
  pose (r := <["datetime" := hour 3600]>
               ({[ "Timestamp" := hour 3600; "Library MTHW (kbtuh)" := num 800 ]}
                : gmap string cell)).
  assert (load_data parse_stamps noted_wb
          = Ok ((loaded noted_wb).1, (loaded noted_wb).2)) as H1
    by (vm_compute; reflexivity).
  assert (chosen (common_buildings (columns (loaded noted_wb).1)
                    (columns (loaded noted_wb).2)) visit = Some "Library") as H2
    by (vm_compute; reflexivity).
  assert ("Library" +:+ " CHW (kbtuh)" ∈ columns (loaded noted_wb).1) as H3.
  { apply (list_elem_of_lookup_2 _ 1). vm_compute. reflexivity. }
  assert ("Library" +:+ " MTHW (kbtuh)" ∈ columns (loaded noted_wb).2) as H4.
  { apply (list_elem_of_lookup_2 _ 1). vm_compute. reflexivity. }
  assert (l ∈ rows (loaded noted_wb).1) as H5.
  { apply (list_elem_of_lookup_2 _ 0). vm_compute. reflexivity. }
  assert (r ∈ rows (loaded noted_wb).2) as H6.
  { apply (list_elem_of_lookup_2 _ 0). vm_compute. reflexivity. }
  assert (cell_at l "datetime" = cell_at r "datetime") as H7
    by (vm_compute; reflexivity).
  assert (comparable (cell_at l ("Library" +:+ " CHW (kbtuh)")) = false
          ∨ comparable (cell_at r ("Library" +:+ " MTHW (kbtuh)")) = false) as H8
    by (left; vm_compute; reflexivity).
  split; [exact H1|]. split; [exact H2|]. split; [exact H3|]. split; [exact H4|].
  split; [exact H5|]. split; [exact H6|].
  destruct (text_load_ends_run parse_stamps noted_wb visit _ _ _ l r
              H1 H2 H3 H4 H5 H6 H7 H8) as (msg & _ & Happ).
  exists msg. exact (f_equal snd Happ).
Defined.

(** An instance: the sample workbook. *)
Lemma exact_labels_have_columns_witness :
  load_data parse_stamps sample_wb = Ok ((loaded sample_wb).1, (loaded sample_wb).2)
  ∧ exact_labels "CHW" (columns (loaded sample_wb).1) = true
  ∧ exact_labels "MTHW" (columns (loaded sample_wb).2) = true
  ∧ chosen (common_buildings (columns (loaded sample_wb).1) (columns (loaded sample_wb).2))
      visit = Some "Library"
  ∧ "Library" +:+ " CHW (kbtuh)" ∈ columns (loaded sample_wb).1
  ∧ "Library" +:+ " MTHW (kbtuh)" ∈ columns (loaded sample_wb).2.
Proof.
  assert (load_data parse_stamps sample_wb
          = Ok ((loaded sample_wb).1, (loaded sample_wb).2)) as H1
    by (vm_compute; reflexivity).
  assert (exact_labels "CHW" (columns (loaded sample_wb).1) = true) as H2
    by (vm_compute; reflexivity).
  assert (exact_labels "MTHW" (columns (loaded sample_wb).2) = true) as H3
    by (vm_compute; reflexivity).
  assert (chosen (common_buildings (columns (loaded sample_wb).1)
                    (columns (loaded sample_wb).2)) visit = Some "Library") as H4
    by (vm_compute; reflexivity).
  split; [exact H1|]. split; [exact H2|]. split; [exact H3|]. split; [exact H4|].
  destruct (exact_labels_have_columns parse_stamps sample_wb visit _ _ _ H1 H2 H3 H4)
    as (Hc & Hm & _).
  split; [exact Hc|exact Hm].
Defined.

(** An instance: the workbook whose CHW sheet has a label with something
    after "(kbtuh)". *)
Lemma missing_column_ends_run_witness :
  load_data parse_stamps stale_wb = Ok ((loaded stale_wb).1, (loaded stale_wb).2)
  ∧ chosen (common_buildings (columns (loaded stale_wb).1) (columns (loaded stale_wb).2))
      visit = Some "Library"
  ∧ ((("Library" +:+ " CHW (kbtuh)") ∉ columns (loaded stale_wb).1)
     ∨ (("Library" +:+ " MTHW (kbtuh)") ∉ columns (loaded stale_wb).2))
  ∧ ∃ label, merge_and_analyze (loaded stale_wb).1 (loaded stale_wb).2 "Library"
               (clamp 0 5000 (entered visit))
             = Raise (KeyError label).
Proof.
  assert (load_data parse_stamps stale_wb
          = Ok ((loaded stale_wb).1, (loaded stale_wb).2)) as H1
    by (vm_compute; reflexivity).
  assert (chosen (common_buildings (columns (loaded stale_wb).1)
                    (columns (loaded stale_wb).2)) visit = Some "Library") as H2
    by (vm_compute; reflexivity).
  assert ((("Library" +:+ " CHW (kbtuh)") ∉ columns (loaded stale_wb).1)
          ∨ (("Library" +:+ " MTHW (kbtuh)") ∉ columns (loaded stale_wb).2)) as H3.
  { left.
    assert (columns (loaded stale_wb).1
            = ["Timestamp"; "Library CHW (kbtuh) old"; "datetime"]) as ->
      by (vm_compute; reflexivity).
    apply (bool_decide_unpack _). vm_compute. exact I. }
  split; [exact H1|]. split; [exact H2|]. split; [exact H3|].
  destruct (missing_column_ends_run parse_stamps stale_wb visit _ _ _ H1 H2 H3)
    as (label & _ & Hrun & _).
  exists label. exact Hrun.
Defined.



(** ** What the analysis of a building depends on *)

(** Two frames that agree on the labels selected give the same selection. *)
Lemma select_agree df df' cols :
  Forall (λ c, c ∈ columns df ↔ c ∈ columns df') cols →
  Forall2 (λ r r' : gmap string cell, ∀ c, c ∈ cols → r !! c = r' !! c)
    (rows df) (rows df') →
  select df cols = select df' cols.
Proof.
  intros Hcols Hrows. unfold select.
  assert (filter (λ c, c ∉ columns df) cols = filter (λ c, c ∉ columns df') cols) as ->.
  { clear Hrows. induction Hcols as [|c l Hc _ IH]; [done|]. rewrite !filter_cons, IH.
    destruct (decide (c ∉ columns df)) as [Hn|Hn].
    - rewrite decide_True; [done|]. by rewrite <-Hc.
    - rewrite decide_False; [done|]. by rewrite <-Hc. }
  assert ((λ r : gmap string cell, filter (λ kv, kv.1 ∈ cols) r) <$> rows df
          = (λ r, filter (λ kv, kv.1 ∈ cols) r) <$> rows df') as ->; [|done].
  induction Hrows as [|r r' l l' Hr _ IH]; [done|]. csimpl. rewrite IH. f_equal.
  apply map_eq. intros c. destruct (decide (c ∈ cols)) as [Hc|Hc].
  - rewrite !lookup_select by done. by apply Hr.
  - by rewrite !lookup_select_None.
Qed.

(** X17: the result for a building depends on nothing but the datetime
    column and the building's own column of each frame. Two pairs of frames
    that agree there, row by row, give the same joined frame and the same
    simultaneous hours, or the same error: what the sheets hold for other
    buildings does not matter. *)
Theorem other_columns_do_not_matter chw_df chw_df' mthw_df mthw_df' b t :
  Forall (λ c, c ∈ columns chw_df ↔ c ∈ columns chw_df')
    ["datetime"; b +:+ " CHW (kbtuh)"] →
  Forall (λ c, c ∈ columns mthw_df ↔ c ∈ columns mthw_df')
    ["datetime"; b +:+ " MTHW (kbtuh)"] →
  Forall2 (λ r r' : gmap string cell,
             ∀ c, c ∈ ["datetime"; b +:+ " CHW (kbtuh)"] → r !! c = r' !! c)
    (rows chw_df) (rows chw_df') →
  Forall2 (λ r r' : gmap string cell,
             ∀ c, c ∈ ["datetime"; b +:+ " MTHW (kbtuh)"] → r !! c = r' !! c)
    (rows mthw_df) (rows mthw_df') →
  merge_and_analyze chw_df mthw_df b t = merge_and_analyze chw_df' mthw_df' b t.
Proof.
  intros Hc Hm Hrc Hrm. unfold merge_and_analyze, merge_sheets.
  by rewrite (select_agree chw_df chw_df' _ Hc Hrc),
    (select_agree mthw_df mthw_df' _ Hm Hrm).
Qed.

(** An instance: the Library of the sample workbook, with other loads for
    the Annex. *)
Lemma other_columns_do_not_matter_witness :
  Forall (λ c, c ∈ columns (loaded sample_wb).1 ↔ c ∈ columns (loaded revised_wb).1)
    ["datetime"; "Library" +:+ " CHW (kbtuh)"]
  ∧ Forall (λ c, c ∈ columns (loaded sample_wb).2 ↔ c ∈ columns (loaded revised_wb).2)
      ["datetime"; "Library" +:+ " MTHW (kbtuh)"]
  ∧ Forall2 (λ r r' : gmap string cell,
               ∀ c, c ∈ ["datetime"; "Library" +:+ " CHW (kbtuh)"] → r !! c = r' !! c)
      (rows (loaded sample_wb).1) (rows (loaded revised_wb).1)
  ∧ Forall2 (λ r r' : gmap string cell,
               ∀ c, c ∈ ["datetime"; "Library" +:+ " MTHW (kbtuh)"] → r !! c = r' !! c)
      (rows (loaded sample_wb).2) (rows (loaded revised_wb).2)
  ∧ merge_and_analyze (loaded sample_wb).1 (loaded sample_wb).2 "Library" 700
    = merge_and_analyze (loaded revised_wb).1 (loaded revised_wb).2 "Library" 700.
Proof.
  assert (columns (loaded revised_wb).1 = columns (loaded sample_wb).1) as Ec
    by (vm_compute; reflexivity).
  assert ((loaded revised_wb).2 = (loaded sample_wb).2) as Em
    by (vm_compute; reflexivity).
  assert (Forall (λ c, c ∈ columns (loaded sample_wb).1
                       ↔ c ∈ columns (loaded revised_wb).1)
            ["datetime"; "Library" +:+ " CHW (kbtuh)"]) as H1.
  { rewrite Ec. apply Forall_forall. by intros c _. }
  assert (Forall (λ c, c ∈ columns (loaded sample_wb).2
                       ↔ c ∈ columns (loaded revised_wb).2)
            ["datetime"; "Library" +:+ " MTHW (kbtuh)"]) as H2.
  { rewrite Em. apply Forall_forall. by intros c _. }
  assert (Forall2 (λ r r' : gmap string cell,
                     ∀ c, c ∈ ["datetime"; "Library" +:+ " CHW (kbtuh)"] →
                          r !! c = r' !! c)
            (rows (loaded sample_wb).1) (rows (loaded revised_wb).1)) as H3.
  { assert (Forall2 (λ r r' : gmap string cell,
                       Forall (λ c, r !! c = r' !! c)
                         ["datetime"; "Library" +:+ " CHW (kbtuh)"])
              (rows (loaded sample_wb).1) (rows (loaded revised_wb).1)) as Hall.
    { apply (bool_decide_unpack _). vm_compute. exact I. }
    eapply Forall2_impl; [exact Hall|]. intros r r' Hr c Hc.
    rewrite Forall_forall in Hr. by apply Hr. }
  assert (Forall2 (λ r r' : gmap string cell,
                     ∀ c, c ∈ ["datetime"; "Library" +:+ " MTHW (kbtuh)"] →
                          r !! c = r' !! c)
            (rows (loaded sample_wb).2) (rows (loaded revised_wb).2)) as H4.
  { rewrite Em. apply Forall_Forall2_diag, Forall_forall. by intros r _ c _. }
  split; [exact H1|]. split; [exact H2|]. split; [exact H3|]. split; [exact H4|].
  apply (other_columns_do_not_matter _ _ _ _ _ _ H1 H2 H3 H4).
Defined.

(** ** The first visit *)

Section first_visit.
Context (parse : list cell → cell → option Z).

(** X18: when nothing is picked in the select box the building that is
    analysed is the first option, which is the least of the common
    buildings in the order of their bytes; its name is what the page
    shows as selected. *)
Theorem default_building_is_least wb s chw_df mthw_df :
  load_data parse wb = Ok (chw_df, mthw_df) →
  picked s = 0 →
  common_buildings (columns chw_df) (columns mthw_df) ≠ [] →
  ∃ b,
    chosen (common_buildings (columns chw_df) (columns mthw_df)) s = Some b
    ∧ (∀ b', b' ∈ common_buildings (columns chw_df) (columns mthw_df) →
             String.le b b')
    ∧ (app parse wb s []).1 !! 3
      = Some (StSuccess ("Selected Building: **" +:+ b +:+ "**")).
Proof.
  intros Hload Hpicked Hne.
  pose proof (sorted_Sorted
    (elements ((list_to_set (extract_building_names (columns chw_df) "CHW")
                : gset string)
               ∩ list_to_set (extract_building_names (columns mthw_df) "MTHW"))))
    as Hsorted.
  change (Sorted String.le (common_buildings (columns chw_df) (columns mthw_df)))
    in Hsorted.
  destruct (common_buildings (columns chw_df) (columns mthw_df)) as [|b l] eqn:E;
    [done|].
  assert (chosen (b :: l) s = Some b) as Hb by (unfold chosen; by rewrite Hpicked).
  exists b. split; [done|]. split.
  - apply (Sorted_StronglySorted String.le) in Hsorted.
    apply StronglySorted_cons in Hsorted as [Hall _].
    rewrite Forall_forall in Hall.
    intros b' [->|Hin]%elem_of_cons; [done|by apply Hall].
  - rewrite <-E in Hb.
    destruct (merge_and_analyze chw_df mthw_df b (clamp 0 5000 (entered s)))
      as [[df simul_df]|e] eqn:Hrun.
    + by rewrite (app_complete parse wb s _ _ _ _ _ Hload Hb Hrun).
    + by rewrite (app_analysis_Raise parse wb s _ _ _ _ Hload Hb Hrun).
Qed.
End first_visit.

(** An instance: a visit of the sample workbook. *)
Lemma default_building_is_least_witness :
  load_data parse_stamps sample_wb = Ok ((loaded sample_wb).1, (loaded sample_wb).2)
  ∧ picked visit = 0
  ∧ common_buildings (columns (loaded sample_wb).1) (columns (loaded sample_wb).2) ≠ []
  ∧ ∃ b, (app parse_stamps sample_wb visit []).1 !! 3
         = Some (StSuccess ("Selected Building: **" +:+ b +:+ "**")).
Proof.
  assert (load_data parse_stamps sample_wb
          = Ok ((loaded sample_wb).1, (loaded sample_wb).2)) as H1
    by (vm_compute; reflexivity).
  assert (picked visit = 0) as H2 by reflexivity.
  assert (common_buildings (columns (loaded sample_wb).1) (columns (loaded sample_wb).2)
          ≠ []) as H3.
  { assert (common_buildings (columns (loaded sample_wb).1)
              (columns (loaded sample_wb).2) = ["Library"]) as ->
      by (vm_compute; reflexivity).
    discriminate. }
  split; [exact H1|]. split; [exact H2|]. split; [exact H3|].
  destruct (default_building_is_least parse_stamps sample_wb visit _ _ H1 H2 H3)
    as (b & _ & _ & Hpage).
  exists b. exact Hpage.
Defined.
